(** * prvt: key lifecycle, repository facade and Azure backend

    A shallow embedding of the Go sources of the prvt repository
    (package [cmd]: info-file creation, upgrade and unlock; package
    [repository]: [RemovePath]; package [fs]: the Azure Blob Storage
    backend) together with the properties that its specification states
    about them.

    Go code with side effects (prompting the user, calling GPG, drawing
    random bytes, talking to Azure, the metadata cache) is embedded as a
    program over an alphabet of external calls; running a program against
    an arbitrary environment yields its result, the final environment and
    the ordered log of external calls with their answers. *)

From Stdlib Require Import ZArith List Bool Lia.
From Stdlib.Strings Require Import String Ascii Byte.
From Stdlib.Numbers Require Import DecimalString.
Import ListNotations.
Local Open Scope string_scope.
Local Open Scope Z_scope.

Set Implicit Arguments.

(* ================================================================== *)
(** * Go values *)

(** [[]byte]; the nil slice and the empty slice are both [[]], which is
    all that [len] and [bytes.Compare] can tell apart. *)
Definition bytes := list byte.

Definition len (b : bytes) : Z := Z.of_nat (List.length b).

Fixpoint bytes_eqb (a b : bytes) : bool :=
  match a, b with
  | [], [] => true
  | x :: a', y :: b' => Byte.eqb x y && bytes_eqb a' b'
  | _, _ => false
  end.

(** A Go [error] value; [option error] is an [error] that may be nil. *)
Inductive error : Type :=
| errors_New (msg : string).

(** The pair (value, err) returned by a fallible Go function. *)
Inductive result (A : Type) : Type :=
| Ok (a : A)
| Err (e : error).
Arguments Err {A} e.

Definition is_ok {A} (r : result A) : bool :=
  match r with Ok _ => true | Err _ => false end.

(** [strconv.Itoa] on a non-negative counter. *)
Definition Itoa (i : nat) : string := NilZero.string_of_uint (Nat.to_uint i).

(* ================================================================== *)
(** * Programs over external calls *)

Section Programs.
Variable E : Type -> Type.

Inductive Prog (A : Type) : Type :=
  | Ret (a : A)
  | Panic
  | Vis (X : Type) (e : E X) (k : X -> Prog A).
Arguments Panic {A}.

Fixpoint bind {A B} (p : Prog A) (f : A -> Prog B) : Prog B :=
  match p with
  | Ret a => f a
  | Panic => Panic
  | Vis e k => Vis e (fun x => bind (k x) f)
  end.

Definition trigger {X} (e : E X) : Prog X := Vis e (fun x => Ret x).

(** One entry of the log: the call and the answer it received. *)
Record Event : Type := Ev { ev_ty : Type; ev_call : E ev_ty; ev_ans : ev_ty }.

Inductive outcome (A : Type) : Type :=
  | Returned (a : A)
  | Panicked.
Arguments Panicked {A}.

Section Run.
Variable W : Type.
Variable h : forall X, E X -> W -> X * W.

Fixpoint run {A} (p : Prog A) (w : W) : outcome A * W * list Event :=
  match p with
  | Ret a => (Returned a, w, [])
  | Panic => (Panicked, w, [])
  | Vis e k =>
      let '(x, w1) := h e w in
      let '(r, w2, tr) := run (k x) w1 in
      (r, w2, Ev e x :: tr)
  end.

Definition result_of {A} (p : Prog A) (w : W) : outcome A := fst (fst (run p w)).
Definition trace_of {A} (p : Prog A) (w : W) : list Event := snd (run p w).
End Run.
End Programs.

Arguments Ret {E A} a.
Arguments Panic {E A}.
Arguments Vis {E A X} e k.
Arguments Returned {A} a.
Arguments Panicked {A}.
Arguments Ev {E ev_ty} ev_call ev_ans.
Arguments trigger {E X} e.

Declare Scope prog_scope.
Delimit Scope prog_scope with prog.
Notation "x <- p ;; q" := (bind p (fun x => q))
  (at level 61, p at next level, right associativity) : prog_scope.
Notation "' pat <- p ;; q" := (bind p (fun x => match x with pat => q end))
  (at level 61, pat pattern, p at next level, right associativity) : prog_scope.
Local Open Scope prog_scope.

(* ================================================================== *)
(** * Info files (package infofile, as used by package cmd) *)

(** [infofile.InfoFileKey]: one wrapped copy of the master key. *)
Record InfoFileKey : Type := mkKey {
  GPGKey : string;
  MasterKey : bytes;
  KeySalt : bytes;
  KeyConfirmationHash : bytes
}.

(** [infofile.InfoFile], with the fields the sources read or write. *)
Record InfoFile : Type := mkInfo {
  Version : Z;
  DataPath : string;
  Salt : bytes;
  ConfirmationHash : bytes;
  Keys : list InfoFileKey
}.

Definition set_Version (i : InfoFile) (v : Z) : InfoFile :=
  mkInfo v (DataPath i) (Salt i) (ConfirmationHash i) (Keys i).
Definition set_Salt (i : InfoFile) (s : bytes) : InfoFile :=
  mkInfo (Version i) (DataPath i) s (ConfirmationHash i) (Keys i).
Definition set_ConfirmationHash (i : InfoFile) (c : bytes) : InfoFile :=
  mkInfo (Version i) (DataPath i) (Salt i) c (Keys i).
Definition set_Keys (i : InfoFile) (ks : list InfoFileKey) : InfoFile :=
  mkInfo (Version i) (DataPath i) (Salt i) (ConfirmationHash i) ks.

(** Modelled from the spec: the body of [infofile.AddPassphrase] is not
    among the sources.  A passphrase slot is (salt, confirmationHash,
    wrappedMasterKey) and adding one appends it to the ordered sequence of
    slots. *)
Definition passphrase_slot (salt confirmationHash wrappedKey : bytes) : InfoFileKey :=
  mkKey "" wrappedKey salt confirmationHash.

Definition append_key (i : InfoFile) (k : InfoFileKey) : InfoFile :=
  set_Keys i (Keys i ++ [k])%list.

(** The deterministic functions of packages crypto and infofile that
    package cmd calls and whose bodies are not among the sources. *)
Class Deps : Type := {
  (** [crypto.KeyFromPassphrase(passphrase, salt)]: (key, confirmationHash, err) *)
  KeyFromPassphrase : string -> bytes -> result (bytes * bytes);
  (** [crypto.UnwrapKey(wrappingKey, wrappedKey)] *)
  UnwrapKey : bytes -> bytes -> result bytes;
  (** [info.AddPassphrase(salt, confirmationHash, wrappedKey)], returning the
      info file as the call leaves it *)
  AddPassphrase : InfoFile -> bytes -> bytes -> bytes -> result InfoFile;
  (** [info.AddGPGWrappedKey(gpgKey, wrappedKey)] *)
  AddGPGWrappedKey : InfoFile -> string -> bytes -> result InfoFile
}.

(** The external calls of package cmd: the terminal, the GPG agent and
    the calls that draw randomness. *)
Inductive cmdE : Type -> Type :=
| PromptRun : cmdE (result string)                       (* prompt.Run() *)
| GPGDecrypt (wrapped : bytes) : cmdE (result bytes)     (* utils.GPGDecrypt *)
| GPGEncrypt (key : bytes) (gpgKey : string) : cmdE (result bytes)
| NewKey : cmdE (result bytes)                           (* crypto.NewKey *)
| NewSalt : cmdE (result bytes)                          (* crypto.NewSalt *)
| WrapKey (wrappingKey key : bytes) : cmdE (result bytes)
| InfofileNew : cmdE (result InfoFile).                  (* infofile.New *)

(** What a function that returns [(errMessage string, err error)] and
    mutates [*info] leaves behind. *)
Definition status : Type := (string * option error)%type.

Module Cmd.
Section WithDeps.
Context {D : Deps}.

(** [PromptPassphrase] *)
Definition PromptPassphrase : Prog cmdE (result string) :=
  r <- trigger PromptRun ;;
  match r with
  | Err e => Ret (Err e)
  | Ok key => Ret (Ok key)
  end.

(** [upgradeInfoFileV1] *)
Definition upgradeInfoFileV1 (info : InfoFile) : Prog cmdE (InfoFile * status) :=
  if (0 <? len (Salt info)) && (0 <? len (ConfirmationHash info)) then
    p <- PromptPassphrase ;;
    match p with
    | Err e => Ret (info, ("Error getting passphrase", Some e))
    | Ok passphrase =>
      match KeyFromPassphrase passphrase (Salt info) with
      | Err _ => Ret (info, ("Cannot unlock the repository", Some (errors_New "Invalid passphrase")))
      | Ok (masterKey, confirmationHash) =>
        if negb (bytes_eqb (ConfirmationHash info) confirmationHash) then
          Ret (info, ("Cannot unlock the repository", Some (errors_New "Invalid passphrase")))
        else
          s <- trigger NewSalt ;;
          match s with
          | Err e => Ret (info, ("Error generating a new salt", Some e))
          | Ok newSalt =>
            match KeyFromPassphrase passphrase newSalt with
            | Err e => Ret (info, ("Error deriving the wrapping key", Some e))
            | Ok (wrappingKey, newConfirmationHash) =>
              wr <- trigger (WrapKey wrappingKey masterKey) ;;
              match wr with
              | Err e => Ret (info, ("Error wrapping the master key", Some e))
              | Ok wrappedKey =>
                match AddPassphrase info newSalt newConfirmationHash wrappedKey with
                | Err e => Ret (info, ("Error adding the key", Some e))
                | Ok info1 =>
                  let info2 := set_Salt info1 [] in
                  let info3 := set_ConfirmationHash info2 [] in
                  Ret (info3, ("", None))
                end
              end
            end
          end
      end
    end
  else Ret (info, ("", None)).

(** [UpgradeInfoFile] *)
Definition UpgradeInfoFile (info : InfoFile) : Prog cmdE (InfoFile * status) :=
  if negb (Version info =? 1) && negb (Version info =? 2) then
    Ret (info, ("Unsupported repository version",
                Some (errors_New "This repository has already been upgraded or is using an unsupported version")))
  else
    '(info1, (errMessage, err)) <-
       (if Version info <? 2 then upgradeInfoFileV1 info else Ret (info, ("", None))) ;;
    match err with
    | Some e => Ret (info1, (errMessage, Some e))
    | None => Ret (set_Version info1 3, ("", None))
    end.

(** [AddKey] *)
Definition AddKey (info : InfoFile) (masterKey : bytes) (gpgKey : string)
: Prog cmdE (InfoFile * status) :=
if (gpgKey =? "")%string then
  p <- PromptPassphrase ;;
  match p with
  | Err e => Ret (info, ("Error getting passphrase", Some e))
  | Ok passphrase =>
    s <- trigger NewSalt ;;
    match s with
    | Err e => Ret (info, ("Error generating a new salt", Some e))
    | Ok salt =>
      match KeyFromPassphrase passphrase salt with
      | Err e => Ret (info, ("Error deriving the wrapping key", Some e))
      | Ok (wrappingKey, confirmationHash) =>
        wr <- trigger (WrapKey wrappingKey masterKey) ;;
        match wr with
        | Err e => Ret (info, ("Error wrapping the master key", Some e))
        | Ok wrappedKey =>
          match AddPassphrase info salt confirmationHash wrappedKey with
          | Err e => Ret (info, ("Error adding the key", Some e))
          | Ok info1 => Ret (info1, ("", None))
          end
        end
      end
    end
  end
else
  g <- trigger (GPGEncrypt masterKey gpgKey) ;;
  match g with
  | Err e => Ret (info, ("Error encrypting the master key with GPG", Some e))
  | Ok wrappedKey =>
    match AddGPGWrappedKey info gpgKey wrappedKey with
    | Err e => Ret (info, ("Error adding the key", Some e))
    | Ok info1 => Ret (info1, ("", None))
    end
  end.

(** [NewInfoFile]: the results are (info, errMessage, err), [None] being
    the nil pointer. *)
Definition NewInfoFile (gpgKey : string)
  : Prog cmdE (option InfoFile * string * option error) :=
  r <- trigger InfofileNew ;;
  match r with
  | Err e => Ret (None, "Error creating info file", Some e)
  | Ok info =>
    k <- trigger NewKey ;;
    match k with
    | Err e => Ret (None, "Error generating the master key", Some e)
    | Ok masterKey =>
      '(info1, (errMessage, err)) <- AddKey info masterKey gpgKey ;;
      let info2 := match err with Some _ => None | None => Some info1 end in
      Ret (info2, "", None)
    end
  end.

(** The results of [GetMasterKey]: (masterKey, keyId, errMessage, err). *)
Definition unlock : Type := (bytes * string * string * option error)%type.

(** First loop of [GetMasterKey]: the slots wrapped with GPG, in order;
    [rest] is the code after the loop. *)
Fixpoint gpgLoop (keys : list InfoFileKey) (rest : Prog cmdE unlock) : Prog cmdE unlock :=
  match keys with
  | [] => rest
  | k :: ks =>
    if (GPGKey k =? "")%string || (len (MasterKey k) =? 0) then gpgLoop ks rest
    else
      r <- trigger (GPGDecrypt (MasterKey k)) ;;
      match r with
      | Ok masterKey => Ret (masterKey, GPGKey k, "", None)
      | Err _ => gpgLoop ks rest
      end
  end.

(** Second loop of [GetMasterKey], with the counter [i] and, when the
    slots are exhausted, the statement that follows the loop. *)
Fixpoint passphraseLoop (passphrase : string) (keys : list InfoFileKey) (i : nat) : unlock :=
  match keys with
  | [] => ([], "", "Cannot unlock the repository", Some (errors_New "Invalid passphrase"))
  | k :: ks =>
    if negb (GPGKey k =? "")%string || (len (MasterKey k) =? 0) then
      passphraseLoop passphrase ks i
    else if (len (KeySalt k) =? 0) || (len (KeyConfirmationHash k) =? 0) then
      passphraseLoop passphrase ks i
    else
      match KeyFromPassphrase passphrase (KeySalt k) with
      | Ok (wrappingKey, confirmationHash) =>
        if bytes_eqb (KeyConfirmationHash k) confirmationHash then
          match UnwrapKey wrappingKey (MasterKey k) with
          | Err e => ([], "", "Error while unwrapping the master key", Some e)
          | Ok masterKey => (masterKey, "p:" ++ Itoa i, "", None)
          end
        else passphraseLoop passphrase ks (S i)
      | Err _ => passphraseLoop passphrase ks (S i)
      end
  end.

(** The version 1 key of [GetMasterKey]: the master key derived directly
    from the passphrase, when the legacy fields accept it. *)
Definition legacyKey (info : InfoFile) (passphrase : string) : option bytes :=
  if negb (len (Salt info) =? 0) && negb (len (ConfirmationHash info) =? 0) then
    match KeyFromPassphrase passphrase (Salt info) with
    | Ok (masterKey, confirmationHash) =>
      if bytes_eqb (ConfirmationHash info) confirmationHash then Some masterKey else None
    | Err _ => None
    end
  else None.

(** [GetMasterKey] *)
Definition GetMasterKey (info : InfoFile) : Prog cmdE unlock :=
  gpgLoop (Keys info)
    (p <- PromptPassphrase ;;
     match p with
     | Err e => Ret ([], "", "Error getting passphrase", Some e)
     | Ok passphrase =>
       match legacyKey info passphrase with
       | Some masterKey => Ret (masterKey, "LegacyKey", "", None)
       | None => Ret (passphraseLoop passphrase (Keys info) 0)
       end
     end).

End WithDeps.
End Cmd.

(* ================================================================== *)
(** * Package repository: RemovePath *)

Definition error_Error (e : error) : string :=
  match e with errors_New msg => msg end.

(** [fmt.Errorf(prefix + "%s", err)] *)
Definition Errorf (prefix : string) (detail : string) : error :=
  errors_New (prefix ++ detail).

Inductive RepositoryStatus : Type :=
| RepositoryStatusOK
| RepositoryStatusNotFound
| RepositoryStatusInternalError.

Record PathResultMessage : Type := mkMsg {
  Path : string;
  Status : RepositoryStatus;
  MsgErr : option error
}.

(** The external calls of [RemovePath]: the index, the store and the
    result channel. *)
Inductive repoE : Type -> Type :=
| IndexDeleteFile (path : string) : repoE (list string * list string * option error)
| StoreDelete (object : string) : repoE (option error)   (* repo.Store.Delete(object, nil) *)
| Send (msg : PathResultMessage) : repoE unit.           (* res <- msg *)

Module Repository.

(** The loop [for i := range objects] of [RemovePath]; [paths[i]] panics
    when [i] is out of range. *)
Fixpoint deleteObjects (objects paths : list string) (i : nat) : Prog repoE unit :=
  match objects with
  | [] => Ret tt
  | object :: rest =>
    err <- trigger (StoreDelete object) ;;
    match nth_error paths i with
    | None => Panic
    | Some p =>
      match err with
      | Some e =>
        _ <- trigger (Send (mkMsg p RepositoryStatusInternalError
               (Some (Errorf "Error while removing object from store: " (error_Error e))))) ;;
        deleteObjects rest paths (S i)
      | None =>
        _ <- trigger (Send (mkMsg p RepositoryStatusOK None)) ;;
        deleteObjects rest paths (S i)
      end
    end
  end.

(** [Repository.RemovePath] *)
Definition RemovePath (path : string) : Prog repoE unit :=
  '(objects, paths, err) <- trigger (IndexDeleteFile path) ;;
  match err with
  | Some e =>
    trigger (Send (mkMsg path RepositoryStatusInternalError
      (Some (Errorf "Error while removing path from index: " (error_Error e)))))
  | None =>
    if (Z.of_nat (List.length objects) <? 1) then
      trigger (Send (mkMsg path RepositoryStatusNotFound None))
    else deleteObjects objects paths 0
  end.

End Repository.

(* ================================================================== *)
(** * Package fs: the Azure Blob Storage backend *)

(** A parsed URL, as [url.Parse] returns it. *)
Record URL : Type := mkURL { url_string : string }.

(** The [tag interface{}] argument and result of the backend: nil, a
    [*azblob.ETag], or a value of any other dynamic type. *)
Inductive Tag : Type :=
| TagNil
| TagETag (etag : string)
| TagOther.

(** [azblob.BlobAccessConditions], with the two conditions the backend
    sets; the zero value leaves both empty. *)
Record BlobAccessConditions : Type := mkAC {
  IfMatch : string;
  IfNoneMatch : string
}.

Definition noAccessConditions : BlobAccessConditions := mkAC "" "".

(** [azblob.DownloadResponse] *)
Record DownloadResponse : Type := mkResp {
  ContentLength : Z;
  ETag : string
}.

(** The error of an Azure call: an [azblob.StorageError] with its HTTP
    status, or any other error. *)
Inductive azerror : Type :=
| StorageError (StatusCode : Z) (Status : string)
| NetworkError (msg : string).

(** [crypto.Metadata] *)
Record Metadata : Type := mkMetadata {
  Name : string;
  ContentType : string;
  Size : Z
}.

(** [fsutils.RequestRange] *)
Record RequestRange : Type := mkRange {
  Start : Z;
  Length : Z;
  HeaderOffset : Z;
  MetadataOffset : Z;
  FileSize : Z
}.

Definition set_HeaderOffset (r : RequestRange) (v : Z) : RequestRange :=
  mkRange (Start r) (Length r) v (MetadataOffset r) (FileSize r).
Definition set_MetadataOffset (r : RequestRange) (v : Z) : RequestRange :=
  mkRange (Start r) (Length r) (HeaderOffset r) v (FileSize r).

(** What [MetadataCache.Get] returns and [MetadataCache.Add] stores. *)
Record CacheEntry : Type := mkEntry {
  headerVersion : Z;
  headerLength : Z;
  wrappedKey : bytes;
  metadataLength : Z;
  metadata : option Metadata
}.

(** The fields of [AzureStorage] (with those of the embedded [fsBase])
    that hold data; the pipeline, the cache and the mutex are reached
    through external calls. *)
Record AzureStorage : Type := mkAzure {
  masterKey : bytes;
  dataPath : string;
  storageAccountName : string;
  storageContainer : string;
  storageURL : string
}.

(** The two contexts of [GetWithRange]: the caller's and the
    cancellable one derived from it. *)
Inductive ctx : Type :=
| CtxCaller
| CtxInner.

(** What the codec has parsed when it reaches the metadata callback:
    the header fields, and the metadata with its length or an error. *)
Record Header : Type := mkHeader {
  hdVersion : Z;
  hdLength : Z;
  hdWrappedKey : bytes;
  hdMetadata : result (Metadata * Z)
}.

(** Pure functions of other packages that the backend calls. *)
Class FsDeps : Type := {
  url_Parse : string -> result URL;
  (** [crypto.ErrMetadataOnly] *)
  ErrMetadataOnly : error;
  (** methods of [fsutils.RequestRange] *)
  SetFileSize : RequestRange -> Z -> RequestRange;
  StartBytes : RequestRange -> Z;
  LengthBytes : RequestRange -> Z;
  StartPackage : RequestRange -> Z;
  SkipBeginning : RequestRange -> Z
}.

Definition error_eqb (a b : error) : bool :=
  (error_Error a =? error_Error b)%string.

(** The external calls of the backend. *)
Inductive fsE : Type -> Type :=
| Download (c : ctx) (u : URL) (offset count : Z) (ac : BlobAccessConditions)
    : fsE (DownloadResponse + azerror)
| IoCopy (resp : DownloadResponse) : fsE (option error)      (* io.Copy(out, body) *)
| BodyClose (resp : DownloadResponse) : fsE unit             (* deferred body.Close() *)
| UploadStream (u : URL) (content : bytes) (bufferSize maxBuffers : Z)
    (ac : BlobAccessConditions) : fsE (string + azerror)     (* answers the ETag *)
| MuxLock : fsE unit
| MuxUnlock : fsE unit
| CacheGet (name : string) : fsE CacheEntry
| CacheAdd (name : string) (entry : CacheEntry) : fsE unit
| Cancel : fsE unit                                          (* cancel() of innerCtx *)
| ReadHeader (c : ctx) (resp : DownloadResponse) (key : bytes) : fsE Header
| DecryptChunks (c : ctx) (resp : DownloadResponse) : fsE (option error)
| DecryptPackages (resp : DownloadResponse) (hv : Z) (wk mk : bytes)
    (startPackage skipBeginning length : Z) : fsE (option error)
| MetadataCb (md : option Metadata) (sz : Z) : fsE bool.     (* the caller's callback *)

(** The results (found, tag, err) of the read operations. *)
Definition getres : Type := (bool * Tag * option error)%type.

Definition CountToEnd : Z := 0.
Definition StatusNotFound : Z := 404.

Module Azure.
Section WithDeps.
Context {F : FsDeps}.

(** The string that [blobUrl] hands to [url.Parse]. *)
Definition blobPath (f : AzureStorage) (name : string) : string :=
  let folder :=
    match name with
    | String c _ => if Ascii.eqb c "_" then "" else dataPath f ++ "/"
    | EmptyString => ""
    end in
  storageURL f ++ "/" ++ folder ++ name.

(** [AzureStorage.blobUrl] *)
Definition blobUrl (f : AzureStorage) (name : string) : result URL :=
  if (name =? "")%string then Err (errors_New "name is empty")
  else url_Parse (blobPath f name).

(** [AzureStorage.blobAccessConditions]; [None] is the panic of the type
    assertion of [tag] to a pointer to [azblob.ETag]. *)
Definition blobAccessConditions (tag : Tag) : option BlobAccessConditions :=
  match tag with
  | TagNil => Some (mkAC "" "*")
  | TagETag etag => Some (mkAC etag "")
  | TagOther => None
  end.

(** The handling of a failed download, the same in [RawGet], [Get] and
    [GetWithRange]. *)
Definition downloadFailed (e : azerror) : getres :=
  match e with
  | NetworkError msg =>
      (false, TagNil, Some (Errorf "network error while downloading the file: " msg))
  | StorageError code status =>
      if code =? StatusNotFound then (false, TagNil, None)
      else (false, TagNil, Some (Errorf "Azure Storage error while downloading the file: " status))
  end.

(** Runs the deferred [body.Close()] calls, last deferred first. *)
Fixpoint closeAll (deferred : list DownloadResponse) : Prog fsE unit :=
  match deferred with
  | [] => Ret tt
  | resp :: rest => _ <- trigger (BodyClose resp) ;; closeAll rest
  end.

(** [AzureStorage.RawGet] *)
Definition RawGet (f : AzureStorage) (name : string) (start count : Z) : Prog fsE getres :=
  match blobUrl f name with
  | Err e => Ret (false, TagNil, Some e)
  | Ok u =>
    let count := if count <? 1 then CountToEnd else count in
    r <- trigger (Download CtxCaller u start count noAccessConditions) ;;
    match r with
    | inr e => Ret (downloadFailed e)
    | inl resp =>
      if ContentLength resp =? 0 then
        _ <- closeAll [resp] ;; Ret (false, TagNil, None)
      else
        c <- trigger (IoCopy resp) ;;
        match c with
        | Some e => _ <- closeAll [resp] ;; Ret (true, TagNil, Some e)
        | None => _ <- closeAll [resp] ;; Ret (true, TagETag (ETag resp), None)
        end
    end
  end.

(** [AzureStorage.RawSet]: the results are (tagOut, err). *)
Definition RawSet (f : AzureStorage) (name : string) (content : bytes) (tag : Tag)
  : Prog fsE (Tag * option error) :=
  match blobUrl f name with
  | Err e => Ret (TagNil, Some e)
  | Ok u =>
    match blobAccessConditions tag with
    | None => Panic
    | Some accessConditions =>
      r <- trigger (UploadStream u content (3 * 1024 * 1024) 2 accessConditions) ;;
      match r with
      | inr (NetworkError msg) =>
          Ret (TagNil, Some (Errorf "network error while uploading the file: " msg))
      | inr (StorageError _ status) =>
          Ret (TagNil, Some (Errorf "Azure Storage error failed while uploading the file: " status))
      | inl etag => Ret (TagETag etag, None)
      end
    end
  end.

(** Modelled from the spec: the body of [crypto.DecryptFile] is not among
    the sources.  It reads and parses the header and the metadata and
    invokes the callback with them; when the callback returns false it
    returns [ErrMetadataOnly], otherwise it goes on to decrypt the chunks.
    The callback is a closure: [s] stands for the variables it captures.
    The results are (headerVersion, headerLength, wrappedKey, err). *)
Definition DecryptFile {S : Type} (c : ctx) (resp : DownloadResponse) (key : bytes)
  (cb : Metadata -> Z -> S -> Prog fsE (bool * S)) (s : S)
  : Prog fsE (Z * Z * bytes * option error * S) :=
  hd <- trigger (ReadHeader c resp key) ;;
  match hdMetadata hd with
  | Err e => Ret (hdVersion hd, hdLength hd, hdWrappedKey hd, Some e, s)
  | Ok (md, sz) =>
    '(goOn, s1) <- cb md sz s ;;
    if goOn : bool then
      e <- trigger (DecryptChunks c resp) ;;
      Ret (hdVersion hd, hdLength hd, hdWrappedKey hd, e, s1)
    else Ret (hdVersion hd, hdLength hd, hdWrappedKey hd, Some ErrMetadataOnly, s1)
  end.

(** [err != nil && err != crypto.ErrMetadataOnly] *)
Definition fatal (err : option error) : bool :=
  match err with
  | Some e => negb (error_eqb e ErrMetadataOnly)
  | None => false
  end.

(** [AzureStorage.Get]; [hasCb] tells whether [metadataCb] is non-nil. *)
Definition Get (f : AzureStorage) (name : string) (hasCb : bool) : Prog fsE getres :=
  match blobUrl f name with
  | Err e => Ret (false, TagNil, Some e)
  | Ok u =>
    r <- trigger (Download CtxCaller u 0 CountToEnd noAccessConditions) ;;
    match r with
    | inr e => Ret (downloadFailed e)
    | inl resp =>
      if ContentLength resp =? 0 then
        _ <- closeAll [resp] ;; Ret (false, TagNil, None)
      else
        '(hv, hl, wk, err, (md, ml)) <-
          DecryptFile CtxCaller resp (masterKey f)
            (fun md sz _ =>
               _ <- (if hasCb then _ <- trigger (MetadataCb (Some md) sz) ;; Ret tt
                     else Ret tt) ;;
               Ret (true, (Some md, sz)))
            (None, 0) ;;
        if fatal err then
          _ <- closeAll [resp] ;; Ret (true, TagNil, err)
        else
          _ <- trigger MuxLock ;;
          _ <- trigger (CacheAdd name (mkEntry hv hl wk ml md)) ;;
          _ <- trigger MuxUnlock ;;
          _ <- closeAll [resp] ;;
          Ret (true, TagETag (ETag resp), err)
    end
  end.

(** The part of [GetWithRange] after the metadata is known; [deferred]
    are the bodies whose [Close] has been deferred so far.  A nil
    [metadata] panics at [metadata.Size]. *)
Definition getRange (u : URL) (f : AzureStorage) (rng : RequestRange) (hasCb : bool)
  (entry : CacheEntry) (deferred : list DownloadResponse)
  : Prog fsE (RequestRange * getres) :=
  _ <- trigger MuxUnlock ;;
  let rng1 := set_HeaderOffset rng (headerLength entry) in
  let rng2 := set_MetadataOffset rng1 (metadataLength entry) in
  match metadata entry with
  | None => _ <- closeAll deferred ;; Panic
  | Some md =>
    let rng3 := SetFileSize rng2 (Size md) in
    _ <- (if hasCb then _ <- trigger (MetadataCb (Some md) (metadataLength entry)) ;; Ret tt
          else Ret tt) ;;
    r <- trigger (Download CtxCaller u (StartBytes rng3) (LengthBytes rng3) noAccessConditions) ;;
    match r with
    | inr e => _ <- closeAll deferred ;; Ret (rng3, downloadFailed e)
    | inl resp =>
      if ContentLength resp =? 0 then
        _ <- closeAll (resp :: deferred) ;; Ret (rng3, (false, TagNil, None))
      else
        e <- trigger (DecryptPackages resp (headerVersion entry) (wrappedKey entry)
                        (masterKey f) (StartPackage rng3)
                        (SkipBeginning rng3 mod 2 ^ 32) (Length rng3)) ;;
        _ <- closeAll (resp :: deferred) ;;
        match e with
        | Some e => Ret (rng3, (true, TagNil, Some e))
        | None => Ret (rng3, (true, TagETag (ETag resp), None))
        end
    end
  end.

(** The number of bytes of the first request of [GetWithRange]. *)
Definition headerFetchLength : Z := 64 * 1024 + 32 + 256.

(** [AzureStorage.GetWithRange]; the range object is mutated, so its
    final value is returned with the results. *)
Definition GetWithRange (f : AzureStorage) (name : string) (rng : RequestRange)
  (hasCb : bool) : Prog fsE (RequestRange * getres) :=
  match blobUrl f name with
  | Err e => Ret (rng, (false, TagNil, Some e))
  | Ok u =>
    _ <- trigger MuxLock ;;
    cached <- trigger (CacheGet name) ;;
    if (headerVersion cached =? 0) || (headerLength cached <? 1)
       || (len (wrappedKey cached) <? 1) then
      r <- trigger (Download CtxInner u 0 headerFetchLength noAccessConditions) ;;
      match r with
      | inr e =>
        _ <- trigger MuxUnlock ;;
        _ <- trigger Cancel ;;
        Ret (rng, downloadFailed e)
      | inl resp =>
        if ContentLength resp =? 0 then
          _ <- trigger MuxUnlock ;;
          _ <- trigger Cancel ;;
          _ <- closeAll [resp] ;;
          Ret (rng, (false, TagNil, None))
        else
          '(hv, hl, wk, err, (md, ml)) <-
            DecryptFile CtxInner resp (masterKey f)
              (fun md sz _ => _ <- trigger Cancel ;; Ret (false, (Some md, sz)))
              (metadata cached, metadataLength cached) ;;
          if fatal err then
            _ <- trigger MuxUnlock ;;
            _ <- trigger Cancel ;;
            _ <- closeAll [resp] ;;
            Ret (rng, (false, TagNil, err))
          else
            _ <- trigger (CacheAdd name (mkEntry hv hl wk ml md)) ;;
            getRange u f rng hasCb (mkEntry hv hl wk ml md) [resp]
      end
    else getRange u f rng hasCb cached []
  end.

End WithDeps.
End Azure.

(* ================================================================== *)
(** * Package index: the nodes of the index tree *)

Module Index.
Section WithElement.

(** [index.IndexElement], whose declaration is not among the sources. *)
Variable IndexElement : Type.

(** [IndexTreeNode]; [File] is nil for a folder. *)
#[warnings="-register-all"]
Inductive IndexTreeNode : Type :=
| mkNode (Name : string) (File : option IndexElement) (Children : list IndexTreeNode).

Definition Name (n : IndexTreeNode) : string :=
  match n with mkNode name _ _ => name end.
Definition File (n : IndexTreeNode) : option IndexElement :=
  match n with mkNode _ file _ => file end.
Definition Children (n : IndexTreeNode) : list IndexTreeNode :=
  match n with mkNode _ _ children => children end.

(** The loop of [Find]: the first element with the given name. *)
Fixpoint findIn (name : string) (children : list IndexTreeNode) : option IndexTreeNode :=
  match children with
  | [] => None
  | el :: rest => if (Name el =? name)%string then Some el else findIn name rest
  end.

(** [IndexTreeNode.Find]; [None] is the nil pointer. *)
Definition Find (n : IndexTreeNode) (name : string) : option IndexTreeNode :=
  if (name =? "")%string || (Z.of_nat (List.length (Children n)) <? 1) then None
  else findIn name (Children n).

(** [IndexTreeNode.Add]: the node as the call leaves it, and the child
    that is returned. *)
Definition Add (n : IndexTreeNode) (name : string) (file : option IndexElement)
  : IndexTreeNode * IndexTreeNode :=
  let add := mkNode name file [] in
  (mkNode (Name n) (File n) (Children n ++ [add]), add).

End WithElement.
End Index.

(* ================================================================== *)
(** * Package fs: the info file and the deletion of blobs on Azure *)

(** Pure functions of other packages that [GetInfoFile] and
    [SetInfoFile] call. *)
Class InfoCodec : Type := {
  (** [json.Unmarshal(data, info)] into a fresh [InfoFile] *)
  json_Unmarshal : bytes -> result InfoFile;
  (** [json.Marshal(info)] *)
  json_Marshal : InfoFile -> result bytes;
  (** [info.Validate()] *)
  Validate : InfoFile -> option error
}.

(** The external calls of [GetInfoFile], [SetInfoFile] and [Delete]. *)
Inductive blobE : Type -> Type :=
| DownloadBlob (u : URL) (offset count : Z) (ac : BlobAccessConditions)
    : blobE (DownloadResponse + azerror)
| ReadAll (resp : DownloadResponse) : blobE (result bytes)   (* ioutil.ReadAll(body) *)
| CloseBody (resp : DownloadResponse) : blobE unit           (* deferred body.Close() *)
| UploadBuffer (u : URL) (data : bytes) (ac : BlobAccessConditions)
    : blobE (option azerror)                                 (* UploadBufferToBlockBlob *)
| DeleteBlob (u : URL) (includeSnapshots : bool) (ac : BlobAccessConditions)
    : blobE (option error).                                  (* blockBlobURL.Delete *)

Definition set_dataPath (f : AzureStorage) (p : string) : AzureStorage :=
  mkAzure (masterKey f) p (storageAccountName f) (storageContainer f) (storageURL f).

Module AzureOps.
Section WithDeps.
Context {F : FsDeps} {C : InfoCodec}.

(** [AzureStorage.GetInfoFile]: the backend as the call leaves it, and
    the results (info, err). *)
Definition GetInfoFile (f : AzureStorage)
  : Prog blobE (AzureStorage * (option InfoFile * option error)) :=
  match Azure.blobUrl f "_info.json" with
  | Err e => Ret (f, (None, Some e))
  | Ok u =>
    r <- trigger (DownloadBlob u 0 CountToEnd noAccessConditions) ;;
    match r with
    | inr (NetworkError msg) =>
        Ret (f, (None, Some (Errorf "network error while downloading the file: " msg)))
    | inr (StorageError code status) =>
        if code =? StatusNotFound then Ret (f, (None, None))
        else Ret (f, (None, Some (Errorf "Azure Storage error while downloading the file: " status)))
    | inl resp =>
      d <- trigger (ReadAll resp) ;;
      match d with
      | Err e => _ <- trigger (CloseBody resp) ;; Ret (f, (None, Some e))
      | Ok data =>
        if len data =? 0 then _ <- trigger (CloseBody resp) ;; Ret (f, (None, None))
        else
          match json_Unmarshal data with
          | Err e => _ <- trigger (CloseBody resp) ;; Ret (f, (None, Some e))
          | Ok info =>
            match Validate info with
            | Some e => _ <- trigger (CloseBody resp) ;; Ret (f, (None, Some e))
            | None =>
              _ <- trigger (CloseBody resp) ;;
              Ret (set_dataPath f (DataPath info), (Some info, None))
            end
          end
      end
    end
  end.

(** [AzureStorage.SetInfoFile] *)
Definition SetInfoFile (f : AzureStorage) (info : InfoFile) : Prog blobE (option error) :=
  match json_Marshal info with
  | Err e => Ret (Some e)
  | Ok data =>
    match Azure.blobUrl f "_info.json" with
    | Err e => Ret (Some e)
    | Ok u =>
      r <- trigger (UploadBuffer u data noAccessConditions) ;;
      match r with
      | Some (NetworkError msg) =>
          Ret (Some (Errorf "network error while uploading the file: " msg))
      | Some (StorageError _ status) =>
          Ret (Some (Errorf "Azure Storage error failed while uploading the file: " status))
      | None => Ret None
      end
    end
  end.

(** [AzureStorage.Delete]; a tag that is neither nil nor an ETag makes
    the type assertion panic. *)
Definition Delete (f : AzureStorage) (name : string) (tag : Tag) : Prog blobE (option error) :=
  match Azure.blobUrl f name with
  | Err e => Ret (Some e)
  | Ok u =>
    match tag with
    | TagNil => trigger (DeleteBlob u true noAccessConditions)
    | TagETag etag => trigger (DeleteBlob u true (mkAC etag ""))
    | TagOther => Panic
    end
  end.

(** [AzureStorage.AccountName] *)
Definition AccountName (f : AzureStorage) : string :=
  storageAccountName f ++ "/" ++ storageContainer f.

End WithDeps.
End AzureOps.

(* ================================================================== *)
(** * Package server: the handler of GET /file/:fileId *)

(** The external calls of [FileHandler]: the request, the UUID parser,
    the store and the response.  The store answers with the headers it
    passed to the callback, in order, and with its results (found, err). *)
Module Server.

(** [crypto.Header], as the callback reads it. *)
Record Header : Type := mkHeader {
  Name : string;
  ContentType : string;
  Size : Z
}.

Inductive httpE : Type -> Type :=
| Param (key : string) : httpE string                      (* c.Param *)
| UUIDFromString (s : string) : httpE (result Z)           (* the version of the parsed UUID *)
| StoreGet (fileId : string) : httpE (list Header * bool * option error)
| SetHeader (key value : string) : httpE unit              (* c.Header *)
| AbortWithError (code : Z) (err : option error) : httpE unit.

Definition StatusBadRequest : Z := 400.
Definition StatusNotFound : Z := 404.
Definition StatusInternalServerError : Z := 500.

Definition quote : ascii := "034"%char.

(** [strings.ReplaceAll] of every double quote of [s] by nothing. *)
Fixpoint removeQuotes (s : string) : string :=
  match s with
  | EmptyString => EmptyString
  | String c rest =>
      if Ascii.eqb c quote then removeQuotes rest else String c (removeQuotes rest)
  end.

(** [strconv.FormatInt(n, 10)] *)
Definition FormatInt (n : Z) : string := NilZero.string_of_int (Z.to_int n).

(** The value of the Content-Disposition header. *)
Definition contentDisposition (header : Header) : string :=
  if (Name header =? "")%string then "inline"
  else "inline" ++ ("; filename=" ++ String quote EmptyString)
                ++ removeQuotes (Name header) ++ String quote EmptyString.

(** The callback that [FileHandler] passes to the store. *)
Definition sendHeaders (header : Header) : Prog httpE unit :=
  _ <- (if negb (ContentType header =? "")%string
        then trigger (SetHeader "Content-Type" (ContentType header))
        else trigger (SetHeader "Content-Type" "application/octet-stream")) ;;
  _ <- (if 0 <? Size header
        then trigger (SetHeader "Content-Length" (FormatInt (Size header)))
        else Ret tt) ;;
  trigger (SetHeader "Content-Disposition" (contentDisposition header)).

Fixpoint sendAll (headers : list Header) : Prog httpE unit :=
  match headers with
  | [] => Ret tt
  | header :: rest => _ <- sendHeaders header ;; sendAll rest
  end.

(** [Server.FileHandler] *)
Definition FileHandler : Prog httpE unit :=
  fileId <- trigger (Param "fileId") ;;
  if (fileId =? "")%string then
    trigger (AbortWithError StatusBadRequest (Some (errors_New "empty fileId")))
  else
    parsed <- trigger (UUIDFromString fileId) ;;
    match parsed with
    | Err e => trigger (AbortWithError StatusBadRequest (Some e))
    | Ok version =>
      if negb (version =? 4) then trigger (AbortWithError StatusBadRequest None)
      else
        '(headers, found, err) <- trigger (StoreGet fileId) ;;
        _ <- sendAll headers ;;
        if negb found then
          trigger (AbortWithError StatusNotFound (Some (errors_New "file does not exist")))
        else
          match err with
          | Some e => trigger (AbortWithError StatusInternalServerError (Some e))
          | None => Ret tt
          end
    end.

End Server.

(* ================================================================== *)
(** * Observations on logs *)

(** Unlocking: the slots the first loop of [GetMasterKey] hands to GPG,
    and the confirmation-hash test of the second loop. *)
Definition is_gpg_slot (k : InfoFileKey) : bool :=
  negb (GPGKey k =? "")%string && negb (len (MasterKey k) =? 0).

Definition gpg_slots (info : InfoFile) : list InfoFileKey :=
  filter is_gpg_slot (Keys info).

Definition is_passphrase_slot (k : InfoFileKey) : bool :=
  (GPGKey k =? "")%string && negb (len (MasterKey k) =? 0)
  && negb (len (KeySalt k) =? 0) && negb (len (KeyConfirmationHash k) =? 0).

Definition slot_accepts {D : Deps} (passphrase : string) (k : InfoFileKey) : bool :=
  match KeyFromPassphrase passphrase (KeySalt k) with
  | Ok (_, confirmationHash) => bytes_eqb (KeyConfirmationHash k) confirmationHash
  | Err _ => false
  end.

Definition legacy_accepts {D : Deps} (passphrase : string) (info : InfoFile) : bool :=
  match KeyFromPassphrase passphrase (Salt info) with
  | Ok (_, confirmationHash) => bytes_eqb (ConfirmationHash info) confirmationHash
  | Err _ => false
  end.

(** Modelled from the spec: the bodies of [crypto.KeyFromPassphrase],
    [crypto.NewSalt], [crypto.WrapKey] and [crypto.UnwrapKey] are not among
    the sources.  The key derivation yields a 32-byte key and a 32-byte
    confirmation hash, a salt has 16 bytes, a wrapped key is a 12-byte
    nonce, the ciphertext and a 16-byte tag, and unwrapping a wrapped key
    with the same wrapping key yields the key back. *)
Definition crypto_contract {D : Deps} {W : Type} (h : forall X, cmdE X -> W -> X * W) : Prop :=
  (forall p s k c, KeyFromPassphrase p s = Ok (k, c) -> len k = 32 /\ len c = 32) /\
  (forall w s, fst (h _ NewSalt w) = Ok s -> len s = 16) /\
  (forall wk key w c, fst (h _ (WrapKey wk key) w) = Ok c ->
     len c = 12 + len key + 16 /\ UnwrapKey wk c = Ok key).

(** Modelled from the spec: [infofile.AddPassphrase], when it succeeds,
    has appended the passphrase slot. *)
Definition AddPassphrase_appends {D : Deps} : Prop :=
  forall info salt confirmationHash wrapped info',
    AddPassphrase info salt confirmationHash wrapped = Ok info' ->
    info' = append_key info (passphrase_slot salt confirmationHash wrapped).

(** Where the second loop of [GetMasterKey] stops: at the first
    complete passphrase slot whose confirmation hash accepts the
    passphrase.  [slot_unwrap] is what unwrapping that slot yields, and
    [slots_passed] the value of the counter [i] there: the number of
    complete passphrase slots before it. *)
Definition stops_at {D : Deps} (passphrase : string) (k : InfoFileKey) : bool :=
  is_passphrase_slot k && slot_accepts passphrase k.

Definition first_accepting {D : Deps} (passphrase : string) (ks : list InfoFileKey)
  : option InfoFileKey :=
  find (stops_at passphrase) ks.

Definition slot_unwrap {D : Deps} (passphrase : string) (k : InfoFileKey) : result bytes :=
  match KeyFromPassphrase passphrase (KeySalt k) with
  | Ok (wrappingKey, _) => UnwrapKey wrappingKey (MasterKey k)
  | Err e => Err e
  end.

Fixpoint slots_passed {D : Deps} (passphrase : string) (ks : list InfoFileKey) : nat :=
  match ks with
  | [] => 0
  | k :: rest =>
      if stops_at passphrase k then 0
      else if is_passphrase_slot k then S (slots_passed passphrase rest)
      else slots_passed passphrase rest
  end.

Definition gpg_attempt (k : InfoFileKey) (ans : result bytes) : Event cmdE :=
  Ev (GPGDecrypt (MasterKey k)) ans.

(** The log of GPG attempts on [ks] that failed with the errors [errs]. *)
Definition failed_attempts (ks : list InfoFileKey) (errs : list error) : list (Event cmdE) :=
  map (fun ke => gpg_attempt (fst ke) (Err (snd ke))) (combine ks errs).

Definition is_prompt (e : Event cmdE) : bool :=
  match ev_call e with
  | PromptRun => true
  | _ => false
  end.

Definition prompts (tr : list (Event cmdE)) : nat := List.length (filter is_prompt tr).

(** Removing a path: the messages sent on the result channel and the
    calls to the store with their outcome, in order. *)
Definition sent_of (e : Event repoE) : list PathResultMessage :=
  match ev_call e with
  | Send msg => [msg]
  | _ => []
  end.

Definition sent (tr : list (Event repoE)) : list PathResultMessage :=
  flat_map sent_of tr.

Definition deletion_of (e : Event repoE) : list (string * option error) :=
  match ev_call e in repoE X return X -> list (string * option error) with
  | StoreDelete object => fun ans => [(object, ans)]
  | _ => fun _ => []
  end (ev_ans e).

Definition deletions (tr : list (Event repoE)) : list (string * option error) :=
  flat_map deletion_of tr.

Definition status_of (outcome : option error) : RepositoryStatus :=
  match outcome with
  | None => RepositoryStatusOK
  | Some _ => RepositoryStatusInternalError
  end.

(** The layout that the specification gives for the objects of the
    repository: the object id under a directory named by its first two
    characters, inside the data path. *)
Definition sharded_path (f : AzureStorage) (objectId : string) : string :=
  storageURL f ++ "/" ++ dataPath f ++ "/" ++ substring 0 2 objectId ++ "/" ++ objectId.

(** Reading from Azure: the download requests of a log, and whether an
    entry is a download answered with an empty blob. *)
Definition download_of (e : Event fsE) : list (ctx * URL * Z * Z) :=
  match ev_call e with
  | Download c u offset count _ => [(c, u, offset, count)]
  | _ => []
  end.

Definition downloads (tr : list (Event fsE)) : list (ctx * URL * Z * Z) :=
  flat_map download_of tr.

Definition empty_download (e : Event fsE) : bool :=
  match ev_call e in fsE X return X -> bool with
  | Download _ _ _ _ _ => fun ans =>
      match ans with
      | inl resp => ContentLength resp =? 0
      | inr _ => false
      end
  | _ => fun _ => false
  end (ev_ans e).

(** Whether an entry is a download answered with status 404: the blob
    does not exist. *)
Definition absent_download (e : Event fsE) : bool :=
  match ev_call e in fsE X return X -> bool with
  | Download _ _ _ _ _ => fun ans =>
      match ans with
      | inr (StorageError code _) => code =? StatusNotFound
      | _ => false
      end
  | _ => fun _ => false
  end (ev_ans e).





(** The test with which [GetWithRange] decides that the cache has no
    usable entry. *)
Definition cache_miss (cached : CacheEntry) : bool :=
  (headerVersion cached =? 0) || (headerLength cached <? 1) || (len (wrappedKey cached) <? 1).

(** The use of the mutex, the caller's callback and the insertions in
    the cache, as a log shows them. *)
Definition is_lock (e : Event fsE) : bool :=
  match ev_call e with MuxLock => true | _ => false end.

Definition is_unlock (e : Event fsE) : bool :=
  match ev_call e with MuxUnlock => true | _ => false end.

Definition is_callback (e : Event fsE) : bool :=
  match ev_call e with MetadataCb _ _ => true | _ => false end.

Definition count_of (p : Event fsE -> bool) (tr : list (Event fsE)) : nat :=
  List.length (filter p tr).

Definition cache_add_of (e : Event fsE) : list (string * CacheEntry) :=
  match ev_call e with
  | CacheAdd name entry => [(name, entry)]
  | _ => []
  end.

Definition cache_adds (tr : list (Event fsE)) : list (string * CacheEntry) :=
  flat_map cache_add_of tr.

(** The responses whose body a log opens (the downloads that were
    answered with a response) and those whose body it closes, in order. *)
Definition opened_of (e : Event fsE) : list DownloadResponse :=
  match ev_call e in fsE X return X -> list DownloadResponse with
  | Download _ _ _ _ _ => fun ans =>
      match ans with
      | inl resp => [resp]
      | inr _ => []
      end
  | _ => fun _ => []
  end (ev_ans e).

Definition opened_bodies (tr : list (Event fsE)) : list DownloadResponse :=
  flat_map opened_of tr.

Definition closed_of (e : Event fsE) : list DownloadResponse :=
  match ev_call e with
  | BodyClose resp => [resp]
  | _ => []
  end.

Definition closed_bodies (tr : list (Event fsE)) : list DownloadResponse :=
  flat_map closed_of tr.




(** Serving a file: the ids handed to the store, the ids handed to the
    UUID parser with its answer, the aborts and the headers sent. *)
Definition store_call_of (e : Event Server.httpE) : list string :=
  match ev_call e with
  | Server.StoreGet fileId => [fileId]
  | _ => []
  end.

Definition store_calls (tr : list (Event Server.httpE)) : list string :=
  flat_map store_call_of tr.

Definition uuid_check_of (e : Event Server.httpE) : list (string * result Z) :=
  match ev_call e in Server.httpE X return X -> list (string * result Z) with
  | Server.UUIDFromString s => fun ans => [(s, ans)]
  | _ => fun _ => []
  end (ev_ans e).

Definition uuid_checks (tr : list (Event Server.httpE)) : list (string * result Z) :=
  flat_map uuid_check_of tr.

Definition abort_of (e : Event Server.httpE) : list (Z * option error) :=
  match ev_call e with
  | Server.AbortWithError code err => [(code, err)]
  | _ => []
  end.

Definition aborts (tr : list (Event Server.httpE)) : list (Z * option error) :=
  flat_map abort_of tr.

Definition header_of (e : Event Server.httpE) : list (string * string) :=
  match ev_call e with
  | Server.SetHeader key value => [(key, value)]
  | _ => []
  end.

Definition headers_sent (tr : list (Event Server.httpE)) : list (string * string) :=
  flat_map header_of tr.

Fixpoint has_quote (s : string) : bool :=
  match s with
  | EmptyString => false
  | String c rest => Ascii.eqb c Server.quote || has_quote rest
  end.

(* ================================================================== *)
(** * A sample environment

    Concrete stand-ins for the external packages and for the outside
    world, on which the properties below are exercised. *)

Module Sample.
Local Open Scope list_scope.

Definition pad (n : nat) (b : bytes) : bytes := firstn n (b ++ repeat x00 n).

(** Stand-ins for the key derivation and the key wrapping: 32-byte key
    and hash, and a wrapped key made of a nonce, the key and a tag. *)
Definition derive (passphrase : string) (salt : bytes) : result (bytes * bytes) :=
  Ok (pad 32 (salt ++ list_byte_of_string passphrase),
      pad 32 (list_byte_of_string passphrase ++ salt)).

Definition wrap (wrappingKey key : bytes) : bytes :=
  repeat x00 12 ++ key ++ pad 16 wrappingKey.

Definition unwrap (wrappingKey wrapped : bytes) : result bytes :=
  Ok (firstn (List.length wrapped - 28) (skipn 12 wrapped)).

Definition deps : Deps := {|
  KeyFromPassphrase := derive;
  UnwrapKey := unwrap;
  AddPassphrase := fun info salt hash wrapped =>
    Ok (append_key info (passphrase_slot salt hash wrapped));
  AddGPGWrappedKey := fun info gpgKey wrapped =>
    Ok (append_key info (mkKey gpgKey wrapped [] []))
|}.

(** What the user types, what GPG answers and what the random source
    yields; the world counts the calls made so far. *)
Record Script : Type := mkScript {
  typed : result string;
  gpg : bytes -> result bytes;
  salt : result bytes
}.

Definition env (s : Script) : forall X, cmdE X -> nat -> X * nat :=
  fun X e n =>
    match e in cmdE X return X * nat with
    | PromptRun => (typed s, S n)
    | GPGDecrypt wrapped => (gpg s wrapped, S n)
    | GPGEncrypt key gpgKey => (Ok (key ++ list_byte_of_string gpgKey), S n)
    | NewKey => (Ok (repeat x01 32), S n)
    | NewSalt => (salt s, S n)
    | WrapKey wrappingKey key => (Ok (wrap wrappingKey key), S n)
    | InfofileNew => (Ok (mkInfo 3 "data" [] [] []), S n)
    end.

Definition no_gpg (wrapped : bytes) : result bytes :=
  Err (errors_New "gpg: decryption failed").

(** The user types "hunter2", GPG decrypts nothing, salts are drawn. *)
Definition hunter2 : Script :=
  mkScript (Ok "hunter2") no_gpg (Ok (repeat x07 16)).

(** The user types "wrong". *)
Definition wrong : Script :=
  mkScript (Ok "wrong") no_gpg (Ok (repeat x07 16)).

(** The random source fails. *)
Definition no_entropy : Script :=
  mkScript (Ok "hunter2") no_gpg (Err (errors_New "crypto/rand: read failed")).

(** GPG decrypts the blob [x04; x05] and nothing else. *)
Definition second_blob (wrapped : bytes) : result bytes :=
  if bytes_eqb wrapped [x04; x05] then Ok (repeat x01 32)
  else Err (errors_New "gpg: decryption failed").

Definition second_key_decrypts : Script :=
  mkScript (Ok "hunter2") second_blob (Ok (repeat x07 16)).

(** Two GPG slots around a slot without a wrapped key. *)
Definition gpg_info : InfoFile :=
  mkInfo 3 "data" [] []
    [mkKey "0xFEED" [x02; x03] [] []; mkKey "0xDEAD" [] [] []; mkKey "0xBEEF" [x04; x05] [] []].

Definition old_salt : bytes := repeat x05 16.

Definition legacy_key : bytes := pad 32 (old_salt ++ list_byte_of_string "hunter2").

(** A version-1 info file whose legacy fields accept "hunter2". *)
Definition v1_info : InfoFile :=
  mkInfo 1 "data" old_salt (pad 32 (list_byte_of_string "hunter2" ++ old_salt)) [].

(** The slot that the upgrade of [v1_info] appends under [hunter2]. *)
Definition new_slot : InfoFileKey :=
  passphrase_slot (repeat x07 16)
    (pad 32 (list_byte_of_string "hunter2" ++ repeat x07 16))
    (wrap (pad 32 (repeat x07 16 ++ list_byte_of_string "hunter2")) legacy_key).

Definition upgraded_info : InfoFile := mkInfo 3 "data" [] [] [new_slot].

(** A slot that accepts "hunter2" and wraps another key than
    [legacy_key], and a version-1 info file that holds it beside legacy
    fields that accept "hunter2". *)
Definition stale_key : bytes := repeat x01 32.

Definition stale_slot : InfoFileKey :=
  passphrase_slot (repeat x06 16)
    (pad 32 (list_byte_of_string "hunter2" ++ repeat x06 16))
    (wrap (pad 32 (repeat x06 16 ++ list_byte_of_string "hunter2")) stale_key).

Definition v1_stale : InfoFile :=
  mkInfo 1 "data" old_salt (pad 32 (list_byte_of_string "hunter2" ++ old_salt)) [stale_slot].

Definition upgraded_stale : InfoFile := mkInfo 3 "data" [] [] [stale_slot; new_slot].

(** A version-1 info file with a GPG slot beside its legacy fields, and
    GPG decrypting that slot. *)
Definition v1_gpg : InfoFile :=
  mkInfo 1 "data" old_salt (pad 32 (list_byte_of_string "hunter2" ++ old_salt))
    [mkKey "0xBEEF" [x04; x05] [] []].

(** A version-2 info file with one GPG slot and one passphrase slot. *)
Definition v2_info : InfoFile :=
  mkInfo 2 "data" [] [] [mkKey "0xABCD" [x01; x02; x03] [] []; new_slot].

(** The index, the store and the result channel of [RemovePath]. *)
Record RepoScript : Type := mkRepoScript {
  removed : list string * list string * option error;
  broken : string -> bool
}.

Definition repo_env (s : RepoScript) : forall X, repoE X -> nat -> X * nat :=
  fun X e n =>
    match e in repoE X return X * nat with
    | IndexDeleteFile _ => (removed s, S n)
    | StoreDelete object =>
        (if broken s object then Some (errors_New "delete failed") else None, S n)
    | Send _ => (tt, S n)
    end.

(** The index removes two files; the store fails to delete the first. *)
Definition two_files : RepoScript :=
  mkRepoScript (["id-1"; "id-2"], ["/docs/a"; "/docs/b"], None)
               (fun object => (object =? "id-1")%string).

(** The removal from the index fails. *)
Definition index_fails : RepoScript :=
  mkRepoScript ([], [], Some (errors_New "cannot save the index")) (fun _ => false).

(** Stand-ins for url.Parse and for the range arithmetic, the latter
    following the ranged read protocol of the specification. *)
Definition chunk : Z := 64 * 1024.

Definition fsdeps : FsDeps := {|
  url_Parse := fun s => Ok (mkURL s);
  ErrMetadataOnly := errors_New "metadata only";
  SetFileSize := fun r size =>
    mkRange (Start r) (Length r) (HeaderOffset r) (MetadataOffset r) size;
  StartBytes := fun r =>
    HeaderOffset r + MetadataOffset r + (Start r / chunk) * (chunk + 16);
  LengthBytes := fun r =>
    ((Start r + Length r + chunk - 1) / chunk - Start r / chunk) * (chunk + 16);
  StartPackage := fun r => 1 + Start r / chunk;
  SkipBeginning := fun r => Start r mod chunk
|}.

Definition azure : AzureStorage :=
  mkAzure (repeat x09 32) "data" "acct" "box" "https://acct.blob.core.windows.net/box".

Definition object_id : string := "0f8fad5b-d9cb-469f-a165-70867728950e".

(** Azure, the codec and the cache: every download is answered with a
    blob of [size] bytes, the header parses, the cache is empty. *)
Definition fs_env (size : Z) : forall X, fsE X -> nat -> X * nat :=
  fun X e n =>
    match e in fsE X return X * nat with
    | Download _ _ _ _ _ => (inl (mkResp size "0x8D8"), S n)
    | IoCopy _ => (None, S n)
    | BodyClose _ => (tt, S n)
    | UploadStream _ _ _ _ _ => (inl "0x8D9", S n)
    | MuxLock => (tt, S n)
    | MuxUnlock => (tt, S n)
    | CacheGet _ => (mkEntry 0 0 [] 0 None, S n)
    | CacheAdd _ _ => (tt, S n)
    | Cancel => (tt, S n)
    | ReadHeader _ _ _ =>
        (mkHeader 2 64 (repeat x0a 60) (Ok (mkMetadata "readme.md" "text/markdown" 1048576, 120)),
         S n)
    | DecryptChunks _ _ => (None, S n)
    | DecryptPackages _ _ _ _ _ _ _ => (None, S n)
    | MetadataCb _ _ => (true, S n)
    end.

Definition boundary_range : RequestRange := mkRange 65535 2 0 0 0.

(** Azure answering every download with status 404. *)
Definition absent_env : forall X, fsE X -> nat -> X * nat :=
  fun X e n =>
    match e in fsE X return X * nat with
    | Download _ _ _ _ _ =>
        (inr (StorageError 404 "404 The specified blob does not exist."), S n)
    | other => fs_env 0 other n
    end.


End Sample.

(* ================================================================== *)
(** * More of the sample environment *)

Module SampleMore.
Import Sample.
Local Open Scope list_scope.

(** An info file of version 1 that has only a GPG slot. *)
Definition gpg_only_v1 : InfoFile :=
  mkInfo 1 "data" [] [] [mkKey "0xABCD" [x01; x02; x03] [] []].

(** A passphrase slot for the passphrase "other". *)
Definition other_slot : InfoFileKey :=
  passphrase_slot (repeat x08 16)
    (pad 32 (list_byte_of_string "other" ++ repeat x08 16))
    (wrap (pad 32 (repeat x08 16 ++ list_byte_of_string "other")) legacy_key).

(** A GPG slot, a slot for "other" and the slot for "hunter2". *)
Definition three_slots : InfoFile :=
  mkInfo 3 "data" [] [] [mkKey "0xABCD" [x01; x02; x03] [] []; other_slot; new_slot].

(** A version-1 info file that also holds the slot for "hunter2". *)
Definition v1_with_slot : InfoFile :=
  mkInfo 1 "data" old_salt (pad 32 (list_byte_of_string "hunter2" ++ old_salt)) [new_slot].

Definition fresh_info : InfoFile := mkInfo 3 "data" [] [] [].

Definition fresh_key : bytes := repeat x01 32.

(** The slot that [AddKey] appends for "hunter2" and [fresh_key]. *)
Definition added_slot : InfoFileKey :=
  passphrase_slot (repeat x07 16)
    (pad 32 (list_byte_of_string "hunter2" ++ repeat x07 16))
    (wrap (pad 32 (repeat x07 16 ++ list_byte_of_string "hunter2")) fresh_key).

(** The same packages, with an unwrapping that always fails. *)
Definition broken_deps : Deps := {|
  KeyFromPassphrase := derive;
  UnwrapKey := fun _ _ => Err (errors_New "cipher: message authentication failed");
  AddPassphrase := fun info salt hash wrapped =>
    Ok (append_key info (passphrase_slot salt hash wrapped));
  AddGPGWrappedKey := fun info gpgKey wrapped =>
    Ok (append_key info (mkKey gpgKey wrapped [] []))
|}.

(** The user interrupts the prompt. *)
Definition interrupted : Script :=
  mkScript (Err (errors_New "^C")) no_gpg (Ok (repeat x07 16)).

(** A folder with two children. *)
Definition folder : Index.IndexTreeNode string :=
  Index.mkNode "docs" None
    [Index.mkNode "a.txt" (Some "id-1") []; Index.mkNode "b.txt" (Some "id-2") []].

(** The index returns two objects and a single path. *)
Definition one_path : RepoScript :=
  mkRepoScript (["id-1"; "id-2"], ["/docs/a"], None) (fun _ => false).

(** Azure and the codec with a cache that holds the header of every
    object. *)
Definition cached_entry : CacheEntry :=
  mkEntry 2 64 (repeat x0a 60) 120 (Some (mkMetadata "readme.md" "text/markdown" 1048576)).

Definition cached_env : forall X, fsE X -> nat -> X * nat :=
  fun X e n =>
    match e in fsE X return X * nat with
    | CacheGet _ => (cached_entry, S n)
    | other => fs_env 1048576 other n
    end.

(** A codec that reads every non-empty blob as [v2_info]. *)
Definition codec : InfoCodec := {|
  json_Unmarshal := fun _ => Ok v2_info;
  json_Marshal := fun _ => Ok [x7b; x7d];
  Validate := fun _ => None
|}.

(** Azure answering the download of the info file with [answer]. *)
Definition blob_env (answer : DownloadResponse + azerror)
  : forall X, blobE X -> nat -> X * nat :=
  fun X e n =>
    match e in blobE X return X * nat with
    | DownloadBlob _ _ _ _ => (answer, S n)
    | ReadAll _ => (Ok [x7b; x7d], S n)
    | CloseBody _ => (tt, S n)
    | UploadBuffer _ _ _ => (None, S n)
    | DeleteBlob _ _ _ => (None, S n)
    end.

(** A request for the sample object, which the store does not find and
    for which it also returns an error. *)
Definition http_env : forall X, Server.httpE X -> nat -> X * nat :=
  fun X e n =>
    match e in Server.httpE X return X * nat with
    | Server.Param _ => (object_id, S n)
    | Server.UUIDFromString _ => (Ok 4, S n)
    | Server.StoreGet _ => (([], false, Some (errors_New "network error")), S n)
    | Server.SetHeader _ _ => (tt, S n)
    | Server.AbortWithError _ _ => (tt, S n)
    end.

End SampleMore.

(* ================================================================== *)
(** * Properties of package cmd *)

Section RunFacts.
Context {E : Type -> Type} {W : Type} (h : forall X, E X -> W -> X * W).

Lemma run_bind {A B} (p : Prog E A) (f : A -> Prog E B) (w : W) :
  run h (bind p f) w =
  match run h p w with
  | (Returned a, w1, t1) =>
      let '(r, w2, t2) := run h (f a) w1 in (r, w2, (t1 ++ t2)%list)
  | (Panicked, w1, t1) => (Panicked, w1, t1)
  end.
Proof.
  revert w. induction p as [a | | X e k IH]; intro w; simpl.
  - destruct (run h (f a) w) as [[r w2] t2]. reflexivity.
  - reflexivity.
  - destruct (h e w) as [x w1]. rewrite IH.
    destruct (run h (k x) w1) as [[[a|] w2] t1]; simpl.
    + destruct (run h (f a) w2) as [[r w3] t2]. reflexivity.
    + reflexivity.
Qed.

Lemma run_trigger {X} (e : E X) (w : W) :
  run h (trigger e) w = (Returned (fst (h e w)), snd (h e w), [Ev e (fst (h e w))]).
Proof. simpl. destruct (h e w). reflexivity. Qed.

End RunFacts.

Section CmdFacts.
Context {D : Deps} {W : Type} (h : forall X, cmdE X -> W -> X * W).

(** C5.  Upgrading a version-2 info file touches nothing but the version,
    which becomes 3: the slots, the data path and the legacy fields are
    those of the original, no error is reported and no external call is
    made. *)
Theorem UpgradeInfoFile_v2_only_version (info : InfoFile) (w : W) :
  Version info = 2 ->
  exists info',
    run h (Cmd.UpgradeInfoFile info) w = (Returned (info', ("", None)), w, []) /\
    Version info' = 3 /\
    Keys info' = Keys info /\
    DataPath info' = DataPath info /\
    Salt info' = Salt info /\
    ConfirmationHash info' = ConfirmationHash info.
Proof.
  intro Hv. exists (set_Version info 3).
  unfold Cmd.UpgradeInfoFile. rewrite Hv. simpl.
  repeat split; reflexivity.
Qed.

(** C9.  When [AddKey] fails inside [NewInfoFile] (the info file and the
    master key having been created), [NewInfoFile] returns a nil info
    file, an empty error message and a nil error. *)
Theorem NewInfoFile_hides_AddKey_failure
  (gpgKey : string) (w w1 w2 w3 : W) (info0 info1 : InfoFile) (key : bytes)
  (msg : string) (e : error) (tr : list (Event cmdE)) :
  h InfofileNew w = (Ok info0, w1) ->
  h NewKey w1 = (Ok key, w2) ->
  run h (Cmd.AddKey info0 key gpgKey) w2 = (Returned (info1, (msg, Some e)), w3, tr) ->
  result_of h (Cmd.NewInfoFile gpgKey) w = Returned (None, "", None).
Proof.
  intros H0 H1 H2. unfold result_of, Cmd.NewInfoFile.
  simpl. rewrite H0. simpl. rewrite H1.
  rewrite run_bind, H2. reflexivity.
Qed.

Lemma prompts_failed_attempts ks errs tr :
  prompts (failed_attempts ks errs ++ tr) = prompts tr.
Proof.
  unfold prompts, failed_attempts. revert errs.
  induction ks as [|k ks IH]; intros [|e errs]; simpl; auto.
Qed.

Lemma gpg_guard (k : InfoFileKey) :
  (GPGKey k =? "")%string || (len (MasterKey k) =? 0) = negb (is_gpg_slot k).
Proof.
  unfold is_gpg_slot.
  destruct ((GPGKey k =? "")%string), (len (MasterKey k) =? 0); reflexivity.
Qed.

(** The first loop either stops at the first GPG slot that decrypts, or
    attempts every GPG slot in order and hands over to the code after it. *)
Lemma gpgLoop_run (keys : list InfoFileKey) (rest : Prog cmdE Cmd.unlock) (w : W) :
  (exists tried k later errs key w',
      filter is_gpg_slot keys = (tried ++ k :: later)%list /\
      List.length errs = List.length tried /\
      run h (Cmd.gpgLoop keys rest) w =
        (Returned (key, GPGKey k, "", None), w',
         (failed_attempts tried errs ++ [gpg_attempt k (Ok key)])%list))
  \/
  (exists errs w',
      List.length errs = List.length (filter is_gpg_slot keys) /\
      run h (Cmd.gpgLoop keys rest) w =
        (let '(r, w2, t) := run h rest w' in
         (r, w2, (failed_attempts (filter is_gpg_slot keys) errs ++ t)%list))).
Proof.
  revert w. induction keys as [|k ks IH]; intro w.
  - right. exists [], w. split; [reflexivity|]. simpl.
    destruct (run h rest w) as [[r w2] t]. reflexivity.
  - cbn [Cmd.gpgLoop filter]. rewrite gpg_guard.
    destruct (is_gpg_slot k); cbn [negb].
    + cbn [run bind trigger].
      destruct (h (GPGDecrypt (MasterKey k)) w) as [[key|e] w1] eqn:Hh.
      * left. exists [], k, (filter is_gpg_slot ks), [], key, w1.
        repeat split.
      * destruct (IH w1) as
          [(tried & k' & later & errs & key & w' & Hf & Hl & Hr) | (errs & w' & Hl & Hr)].
        -- left. exists (k :: tried), k', later, (e :: errs), key, w'.
           split; [simpl; rewrite Hf; reflexivity|].
           split; [simpl; rewrite Hl; reflexivity|].
           rewrite Hr. reflexivity.
        -- right. exists (e :: errs), w'.
           split; [simpl; rewrite Hl; reflexivity|].
           rewrite Hr. destruct (run h rest w') as [[r w2] t]. reflexivity.
    + apply IH.
Qed.

(** C2.  [GetMasterKey] hands the GPG slots to GPG in the order of the
    info file.  Either some slot decrypts: it is the first one that does,
    the slots before it were attempted and failed, the results are the
    decrypted master key and that slot's GPG key id, and there is no
    prompt.  Or every GPG slot was attempted and failed, and then the
    passphrase is prompted for exactly once. *)
Theorem GetMasterKey_gpg_slots_first (info : InfoFile) (w : W) :
  let r := result_of h (Cmd.GetMasterKey info) w in
  let tr := trace_of h (Cmd.GetMasterKey info) w in
  (exists tried k later errs key,
      gpg_slots info = (tried ++ k :: later)%list /\
      List.length errs = List.length tried /\
      tr = (failed_attempts tried errs ++ [gpg_attempt k (Ok key)])%list /\
      r = Returned (key, GPGKey k, "", None) /\
      prompts tr = 0%nat)
  \/
  (exists errs ans,
      List.length errs = List.length (gpg_slots info) /\
      tr = (failed_attempts (gpg_slots info) errs ++ [Ev PromptRun ans])%list /\
      prompts tr = 1%nat).
Proof.
  unfold result_of, trace_of, Cmd.GetMasterKey, gpg_slots.
  match goal with |- context [Cmd.gpgLoop _ ?rest] => set (after := rest) end.
  destruct (gpgLoop_run (Keys info) after w) as
    [(tried & k & later & errs & key & w' & Hf & Hl & Hr) | (errs & w' & Hl & Hr)];
    rewrite Hr; clear Hr.
  - left. exists tried, k, later, errs, key. simpl.
    repeat split; auto. now rewrite prompts_failed_attempts.
  - right. subst after. simpl.
    destruct (h PromptRun w') as [[pass|e] w1]; simpl.
    + destruct (Cmd.legacyKey info pass); simpl;
        (exists errs, (Ok pass); repeat split; auto; now rewrite prompts_failed_attempts).
    + exists errs, (Err e). repeat split; auto. now rewrite prompts_failed_attempts.
Qed.

(** When GPG decrypts none of the slots, the first loop falls through to
    the code that follows it. *)
Lemma gpgLoop_all_fail (keys : list InfoFileKey) (rest : Prog cmdE Cmd.unlock) (w : W) :
  (forall k w', In k (filter is_gpg_slot keys) ->
                is_ok (fst (h (GPGDecrypt (MasterKey k)) w')) = false) ->
  exists w', result_of h (Cmd.gpgLoop keys rest) w = result_of h rest w'.
Proof.
  revert w. induction keys as [|k ks IH]; intros w Hfail.
  - exists w. reflexivity.
  - cbn [Cmd.gpgLoop filter] in *. rewrite gpg_guard.
    destruct (is_gpg_slot k); cbn [negb].
    + unfold result_of. cbn [run bind trigger].
      pose proof (Hfail k w (or_introl eq_refl)) as Hk.
      destruct (h (GPGDecrypt (MasterKey k)) w) as [[key|e] w1]; [discriminate|].
      destruct (IH w1) as [w' Hw']; [intros; apply Hfail; now right|].
      exists w'. unfold result_of in Hw'. rewrite <- Hw'.
      destruct (run h (Cmd.gpgLoop ks rest) w1) as [[r w2] t]. reflexivity.
    + apply IH. exact Hfail.
Qed.

(** Slots whose confirmation hash rejects the passphrase are passed over
    by the second loop, which counts the passphrase slots among them. *)
Lemma passphraseLoop_skip (pass : string) (ks rest : list InfoFileKey) (i : nat) :
  (forall k, In k ks -> slot_accepts pass k = false) ->
  Cmd.passphraseLoop pass (ks ++ rest) i =
  Cmd.passphraseLoop pass rest (i + List.length (filter is_passphrase_slot ks)).
Proof.
  revert i. induction ks as [|k ks IH]; intros i Hrej.
  - simpl. now rewrite Nat.add_0_r.
  - assert (Hks : forall k', In k' ks -> slot_accepts pass k' = false)
      by (intros; apply Hrej; now right).
    pose proof (Hrej k (or_introl eq_refl)) as Hk. unfold slot_accepts in Hk.
    simpl. unfold is_passphrase_slot at 1.
    destruct ((GPGKey k =? "")%string); simpl; [|now apply IH].
    destruct (len (MasterKey k) =? 0); simpl; [now apply IH|].
    destruct (len (KeySalt k) =? 0); simpl; [now apply IH|].
    destruct (len (KeyConfirmationHash k) =? 0); simpl; [now apply IH|].
    destruct (KeyFromPassphrase pass (KeySalt k)) as [[wk ch]|e].
    + rewrite Hk. rewrite IH by assumption. f_equal. lia.
    + rewrite IH by assumption. f_equal. lia.
Qed.

Lemma legacyKey_rejects (pass : string) (info : InfoFile) :
  legacy_accepts pass info = false -> Cmd.legacyKey info pass = None.
Proof.
  unfold legacy_accepts, Cmd.legacyKey. intro H.
  destruct (negb (len (Salt info) =? 0) && negb (len (ConfirmationHash info) =? 0));
    [|reflexivity].
  destruct (KeyFromPassphrase pass (Salt info)) as [[key ch]|e]; [|reflexivity].
  now rewrite H.
Qed.

(** C4.  When GPG decrypts no slot and the passphrase entered matches
    neither the legacy confirmation hash nor the confirmation hash of any
    slot, [GetMasterKey] fails with the unlock error and its master key
    is nil. *)
Theorem GetMasterKey_wrong_passphrase (info : InfoFile) (pass : string) (w : W) :
  (forall k w', In k (gpg_slots info) ->
                is_ok (fst (h (GPGDecrypt (MasterKey k)) w')) = false) ->
  (forall w', fst (h PromptRun w') = Ok pass) ->
  legacy_accepts pass info = false ->
  (forall k, In k (Keys info) -> slot_accepts pass k = false) ->
  result_of h (Cmd.GetMasterKey info) w =
  Returned ([], "", "Cannot unlock the repository", Some (errors_New "Invalid passphrase")).
Proof.
  intros Hgpg Hprompt Hleg Hslots. unfold Cmd.GetMasterKey.
  match goal with |- context [Cmd.gpgLoop _ ?rest] => set (after := rest) end.
  destruct (gpgLoop_all_fail (Keys info) after w Hgpg) as [w' ->].
  subst after. unfold result_of. simpl.
  pose proof (Hprompt w') as Hp.
  destruct (h PromptRun w') as [ans w1]. simpl in Hp. subst ans. simpl.
  rewrite (legacyKey_rejects _ _ Hleg). simpl.
  pose proof (passphraseLoop_skip pass (Keys info) [] 0 Hslots) as Hskip.
  rewrite app_nil_r in Hskip. rewrite Hskip. reflexivity.
Qed.

Lemma bytes_eqb_refl (b : bytes) : bytes_eqb b b = true.
Proof.
  induction b as [|x b IH]; simpl; [reflexivity|].
  now rewrite IH, (Byte.byte_dec_lb (eq_refl x)).
Qed.

Lemma len_pos_neqb (b : bytes) : 0 < len b -> (len b =? 0) = false.
Proof. intro H. apply Z.eqb_neq. lia. Qed.

Lemma filter_gpg_slot_app_passphrase (ks : list InfoFileKey) (slot : InfoFileKey) :
  GPGKey slot = "" ->
  filter is_gpg_slot (ks ++ [slot]) = filter is_gpg_slot ks.
Proof.
  intro Hg. rewrite filter_app. simpl. unfold is_gpg_slot at 2. rewrite Hg. simpl.
  apply app_nil_r.
Qed.

Lemma prompts_app (a b : list (Event cmdE)) :
  prompts (a ++ b) = (prompts a + prompts b)%nat.
Proof. unfold prompts. now rewrite filter_app, length_app. Qed.

(** The first loop, whatever the code after it: either a GPG slot
    decrypts and the loop returns without a prompt, or every attempt fails
    and the code after the loop runs. *)
Lemma gpgLoop_cases (keys : list InfoFileKey) (w : W) :
  (exists r w' t, prompts t = 0%nat /\
     forall rest, run h (Cmd.gpgLoop keys rest) w = (Returned r, w', t))
  \/
  (exists w' t, prompts t = 0%nat /\
     forall rest, run h (Cmd.gpgLoop keys rest) w =
       (let '(r, w2, t2) := run h rest w' in (r, w2, (t ++ t2)%list))).
Proof.
  revert w. induction keys as [|k ks IH]; intro w.
  - right. exists w, []. split; [reflexivity|]. intro rest. simpl.
    destruct (run h rest w) as [[r w2] t2]. reflexivity.
  - cbn [Cmd.gpgLoop].
    destruct ((GPGKey k =? "")%string || (len (MasterKey k) =? 0)); [apply IH|].
    destruct (h (GPGDecrypt (MasterKey k)) w) as [[key|e] w1] eqn:Hh.
    + left. exists (key, GPGKey k, "", None), w1, [Ev (GPGDecrypt (MasterKey k)) (Ok key)].
      split; [reflexivity|]. intro rest. cbn [run bind trigger]. rewrite Hh. reflexivity.
    + destruct (IH w1) as [(r & w' & t & Hp & Hr) | (w' & t & Hp & Hr)].
      * left. exists r, w', (Ev (GPGDecrypt (MasterKey k)) (Err e) :: t).
        split; [exact Hp|]. intro rest. cbn [run bind trigger]. rewrite Hh, Hr. reflexivity.
      * right. exists w', (Ev (GPGDecrypt (MasterKey k)) (Err e) :: t).
        split; [exact Hp|]. intro rest. cbn [run bind trigger]. rewrite Hh, Hr.
        destruct (run h rest w') as [[r w2] t2]. reflexivity.
Qed.

(** A passphrase slot appended to the slots is passed over by the first
    loop. *)
Lemma gpgLoop_appended_slot (ks : list InfoFileKey) (slot : InfoFileKey)
  (rest : Prog cmdE Cmd.unlock) (w : W) :
  GPGKey slot = "" ->
  run h (Cmd.gpgLoop (ks ++ [slot]) rest) w = run h (Cmd.gpgLoop ks rest) w.
Proof.
  intro Hg. revert w. induction ks as [|k ks IH]; intro w.
  - cbn [app Cmd.gpgLoop]. rewrite Hg. reflexivity.
  - cbn [app Cmd.gpgLoop].
    destruct ((GPGKey k =? "")%string || (len (MasterKey k) =? 0)); [apply IH|].
    cbn [run bind trigger].
    destruct (h (GPGDecrypt (MasterKey k)) w) as [[key|e] w1]; [reflexivity|].
    now rewrite IH.
Qed.

(** The second loop stops at the first complete passphrase slot that
    accepts the passphrase and returns what unwrapping that slot yields. *)
Lemma passphraseLoop_first_accepting (pass : string) (ks : list InfoFileKey) (i : nat) :
  Cmd.passphraseLoop pass ks i =
  match first_accepting pass ks with
  | None => ([], "", "Cannot unlock the repository", Some (errors_New "Invalid passphrase"))
  | Some k =>
      match slot_unwrap pass k with
      | Ok masterKey => (masterKey, "p:" ++ Itoa (i + slots_passed pass ks), "", None)
      | Err e => ([], "", "Error while unwrapping the master key", Some e)
      end
  end.
Proof.
  revert i. induction ks as [|k ks IH]; intro i; [reflexivity|].
  unfold first_accepting in *. cbn [Cmd.passphraseLoop find slots_passed].
  unfold stops_at, is_passphrase_slot, slot_accepts, slot_unwrap.
  destruct ((GPGKey k =? "")%string); cbn [negb orb andb]; [|apply IH].
  destruct (len (MasterKey k) =? 0); cbn [negb orb andb]; [apply IH|].
  destruct (len (KeySalt k) =? 0); cbn [negb orb andb]; [apply IH|].
  destruct (len (KeyConfirmationHash k) =? 0); cbn [negb orb andb]; [apply IH|].
  destruct (KeyFromPassphrase pass (KeySalt k)) as [[wk ch]|e] eqn:Hkdf.
  - destruct (bytes_eqb (KeyConfirmationHash k) ch).
    + rewrite Hkdf, Nat.add_0_r. reflexivity.
    + rewrite IH. now rewrite Nat.add_succ_comm.
  - rewrite IH. now rewrite Nat.add_succ_comm.
Qed.

Lemma first_accepting_app (pass : string) (ks : list InfoFileKey) (slot : InfoFileKey) :
  stops_at pass slot = true ->
  first_accepting pass (ks ++ [slot]) =
  match first_accepting pass ks with
  | Some k => Some k
  | None => Some slot
  end.
Proof.
  intro Hs. unfold first_accepting. induction ks as [|k ks IH]; simpl.
  - now rewrite Hs.
  - destruct (stops_at pass k); [reflexivity|exact IH].
Qed.

(** C3 (as amended).  Take a version-1 info file with legacy passphrase
    fields and the passphrase they accept, entered at every prompt, the
    crypto primitives keeping their contract.  If [UpgradeInfoFile]
    reports no error, then the upgraded file has version 3, its legacy
    salt and confirmation hash are cleared and exactly one passphrase slot
    wrapping the master key has been appended.  Unlocking the upgraded
    file, in the environment in which the original is unlocked, then goes
    as follows.  When the original unlocks without a prompt (a GPG slot
    decrypts), the upgraded file yields the same result in full.  When the
    passphrase is prompted for, the original yields the master key under
    the key id "LegacyKey"; the upgraded file yields the same master key
    with a nil error, under the key id "p:<i>" of the slot at which the
    search stops, provided that the first passphrase slot already in the
    file that accepts the passphrase, if there is one, unwraps to that
    master key. *)
Theorem UpgradeInfoFile_v1_keeps_master_key
  (info info' : InfoFile) (pass : string) (key : bytes) (w : W) :
  crypto_contract h ->
  AddPassphrase_appends ->
  Version info = 1 ->
  0 < len (Salt info) ->
  0 < len (ConfirmationHash info) ->
  KeyFromPassphrase pass (Salt info) = Ok (key, ConfirmationHash info) ->
  (forall w', fst (h PromptRun w') = Ok pass) ->
  result_of h (Cmd.UpgradeInfoFile info) w = Returned (info', ("", None)) ->
  Version info' = 3 /\
  Salt info' = [] /\
  ConfirmationHash info' = [] /\
  DataPath info' = DataPath info /\
  (exists slot wk,
      Keys info' = (Keys info ++ [slot])%list /\
      is_passphrase_slot slot = true /\
      KeyFromPassphrase pass (KeySalt slot) = Ok (wk, KeyConfirmationHash slot) /\
      UnwrapKey wk (MasterKey slot) = Ok key) /\
  forall w0,
    (prompts (trace_of h (Cmd.GetMasterKey info) w0) = 0%nat ->
     result_of h (Cmd.GetMasterKey info') w0 = result_of h (Cmd.GetMasterKey info) w0) /\
    (prompts (trace_of h (Cmd.GetMasterKey info) w0) <> 0%nat ->
     result_of h (Cmd.GetMasterKey info) w0 = Returned (key, "LegacyKey", "", None) /\
     ((forall k, first_accepting pass (Keys info) = Some k -> slot_unwrap pass k = Ok key) ->
      result_of h (Cmd.GetMasterKey info') w0 =
      Returned (key, "p:" ++ Itoa (slots_passed pass (Keys info')), "", None))).
Proof.
  intros (Hkdf & Hsalt & Hwrap) Happ Hv Hs Hc Hvalid Hprompt Hup.
  (* the run of the upgrade *)
  unfold result_of, Cmd.UpgradeInfoFile in Hup. rewrite Hv in Hup.
  cbn [Z.eqb Pos.eqb negb andb Z.ltb Z.compare Pos.compare Pos.compare_cont] in Hup.
  unfold Cmd.upgradeInfoFileV1 in Hup.
  apply Z.ltb_lt in Hs, Hc. rewrite Hs, Hc in Hup. apply Z.ltb_lt in Hs, Hc.
  simpl in Hup.
  pose proof (Hprompt w) as Hp.
  destruct (h PromptRun w) as [ans w1]. simpl in Hp. subst ans. simpl in Hup.
  rewrite Hvalid, bytes_eqb_refl in Hup. simpl in Hup.
  pose proof (Hsalt w1) as Hsalt1.
  destruct (h NewSalt w1) as [[newSalt|e] w2]; simpl in Hup; cbn [fst] in Hsalt1;
    [|discriminate].
  specialize (Hsalt1 _ eq_refl).
  destruct (KeyFromPassphrase pass newSalt) as [[wk newHash]|e] eqn:Hnew;
    simpl in Hup; [|discriminate].
  pose proof (Hwrap wk key w2) as Hwrap2.
  destruct (h (WrapKey wk key) w2) as [[wrapped|e] w3]; simpl in Hup; cbn [fst] in Hwrap2;
    [|discriminate].
  destruct (Hwrap2 _ eq_refl) as [Hlen Hun].
  destruct (AddPassphrase info newSalt newHash wrapped) as [info1|e] eqn:Hadd;
    simpl in Hup; [|discriminate].
  apply Happ in Hadd. subst info1.
  injection Hup as Hup. subst info'.
  destruct (Hkdf _ _ _ _ Hnew) as [_ Hhash].
  set (slot := passphrase_slot newSalt newHash wrapped).
  assert (Hslot : is_passphrase_slot slot = true).
  { unfold is_passphrase_slot, slot, passphrase_slot. simpl.
    rewrite !len_pos_neqb; [reflexivity | | |]; unfold len in *; lia. }
  assert (Hstop : stops_at pass slot = true).
  { unfold stops_at. rewrite Hslot. unfold slot_accepts, slot, passphrase_slot. simpl.
    rewrite Hnew. apply bytes_eqb_refl. }
  assert (Hopen : slot_unwrap pass slot = Ok key).
  { unfold slot_unwrap, slot, passphrase_slot. simpl. rewrite Hnew. exact Hun. }
  split; [reflexivity|]. split; [reflexivity|]. split; [reflexivity|].
  split; [reflexivity|]. split.
  { exists slot, wk. repeat split; assumption. }
  (* the two unlocks, from the same state of the environment *)
  intro w0. unfold result_of, trace_of, Cmd.GetMasterKey.
  cbn [Keys set_Version set_ConfirmationHash set_Salt append_key set_Keys].
  rewrite gpgLoop_appended_slot by reflexivity.
  destruct (gpgLoop_cases (Keys info) w0) as [(r & w' & t & Ht & Hr) | (w' & t & Ht & Hr)];
    rewrite !Hr.
  - (* a GPG slot decrypts *)
    split; [reflexivity|]. cbn [snd]. intro Hn. contradiction.
  - (* the passphrase is prompted for *)
    cbn [run bind trigger Cmd.PromptPassphrase].
    pose proof (Hprompt w') as Hp.
    destruct (h PromptRun w') as [ans w4]. cbn [fst] in Hp. subst ans.
    cbn [run bind trigger].
    assert (Hleg : Cmd.legacyKey info pass = Some key).
    { unfold Cmd.legacyKey. rewrite !len_pos_neqb by assumption. cbn [negb andb].
      now rewrite Hvalid, bytes_eqb_refl. }
    rewrite Hleg.
    match goal with
    | |- context [Cmd.legacyKey ?i pass] =>
        replace (Cmd.legacyKey i pass) with (@None bytes) by reflexivity
    end.
    cbn [run fst snd].
    split.
    + rewrite prompts_app. unfold prompts at 2. cbn. lia.
    + intros _. split; [reflexivity|]. intro Hold.
      rewrite passphraseLoop_first_accepting, first_accepting_app by exact Hstop.
      destruct (first_accepting pass (Keys info)) as [k|] eqn:Hk.
      * now rewrite (Hold k eq_refl).
      * now rewrite Hopen.
Qed.

End CmdFacts.

(* ================================================================== *)
(** * Properties of package repository *)

Section RepositoryFacts.
Context {W : Type} (h : forall X, repoE X -> W -> X * W).

Lemma nth_error_middle {A} (pre : list A) (x : A) (post : list A) :
  nth_error (pre ++ x :: post) (List.length pre) = Some x.
Proof. induction pre as [|y pre IH]; simpl; auto. Qed.

(** The loop deletes every object, whatever the outcome of the earlier
    deletions, and reports each of them under its own path. *)
Lemma deleteObjects_run (objects : list string) :
  forall (pre ps : list string) (w : W),
    List.length ps = List.length objects ->
    let '(r, _, tr) := run h (Repository.deleteObjects objects (pre ++ ps) (List.length pre)) w in
    r = Returned tt /\
    map fst (deletions tr) = objects /\
    map Path (sent tr) = ps /\
    map Status (sent tr) = map status_of (map snd (deletions tr)).
Proof.
  induction objects as [|o os IH]; intros pre ps w Hlen.
  - destruct ps; [|discriminate]. simpl. auto.
  - destruct ps as [|p ps]; [discriminate|]. injection Hlen as Hlen.
    cbn [Repository.deleteObjects bind trigger run].
    destruct (h (StoreDelete o) w) as [err w1].
    rewrite nth_error_middle.
    specialize (IH (pre ++ [p])%list ps).
    rewrite <- app_assoc, length_app, Nat.add_1_r in IH. cbn [app] in IH.
    destruct err as [e|]; cbn [bind trigger run];
      match goal with |- context [h (Send ?m) w1] =>
        destruct (h (Send m) w1) as [[] w2] end;
      specialize (IH w2 Hlen);
      destruct (run h (Repository.deleteObjects os (pre ++ p :: ps) (S (List.length pre))) w2)
        as [[r w3] tr];
      destruct IH as (Hr & Hd & Hp & Hs);
      unfold deletions, sent in *; simpl; rewrite Hd, Hp, Hs; auto.
Qed.

(** C6 (as amended).  [RemovePath] sends exactly one message for the
    requested path, with status InternalError, when the removal from the
    index fails, and with status NotFound when it succeeds and returns no
    object; in both cases the store is not called.  Otherwise every
    returned object is deleted from the store, in order and whatever the
    outcome of the earlier deletions, and exactly one message per object is
    sent, under the path of that object, with status OK when its deletion
    succeeded and InternalError when it failed. *)
Theorem RemovePath_reports
  (path : string) (w w1 : W) (objects paths : list string) (err : option error) :
  h (IndexDeleteFile path) w = ((objects, paths, err), w1) ->
  List.length paths = List.length objects ->
  let tr := trace_of h (Repository.RemovePath path) w in
  match err, objects with
  | Some _, _ =>
      map Path (sent tr) = [path] /\
      map Status (sent tr) = [RepositoryStatusInternalError] /\
      deletions tr = []
  | None, [] =>
      map Path (sent tr) = [path] /\
      map Status (sent tr) = [RepositoryStatusNotFound] /\
      deletions tr = []
  | None, _ :: _ =>
      result_of h (Repository.RemovePath path) w = Returned tt /\
      map fst (deletions tr) = objects /\
      map Path (sent tr) = paths /\
      map Status (sent tr) = map status_of (map snd (deletions tr))
  end.
Proof.
  intros Hidx Hlen. unfold trace_of, result_of, Repository.RemovePath.
  cbn [bind trigger run]. rewrite Hidx.
  destruct err as [e|].
  - cbn [bind trigger run].
    match goal with |- context [h (Send ?m) w1] =>
      destruct (h (Send m) w1) as [[] w2] end.
    cbn. auto.
  - destruct objects as [|o os].
    + cbn.
      match goal with |- context [h (Send ?m) w1] =>
        destruct (h (Send m) w1) as [[] w2] end.
      cbn. auto.
    + replace (Z.of_nat (List.length (o :: os)) <? 1) with false
        by (symmetry; apply Z.ltb_ge; simpl List.length; lia).
      pose proof (deleteObjects_run (o :: os) [] paths w1 Hlen) as Hrun.
      cbn [app List.length] in Hrun.
      destruct (run h (Repository.deleteObjects (o :: os) paths 0) w1) as [[r w3] tr].
      destruct Hrun as (Hr & Hd & Hp & Hs).
      unfold deletions, sent in *. simpl. rewrite Hd, Hp, Hs. auto.
Qed.

End RepositoryFacts.

(* ================================================================== *)
(** * Properties of the Azure backend *)

(** One external call of the program in the goal, answered by the
    environment [h]. *)
Ltac hstep h :=
  match goal with
  | |- context [h ?c ?w] =>
      let a := fresh "a" in
      destruct (h c w) as [a ?];
      match type of a with
      | unit => destruct a
      | _ => idtac
      end
  end.

Ltac run_cbn :=
  cbn [bind trigger run Azure.closeAll
       metadata headerLength metadataLength headerVersion wrappedKey].

Ltac run_to_end h := repeat (run_cbn; hstep h); run_cbn.

Section AzureFacts.
Context {F : FsDeps} {W : Type} (h : forall X, fsE X -> W -> X * W).

Lemma append_assoc (a b c : string) : (a ++ b) ++ c = a ++ (b ++ c).
Proof. induction a as [|x a IH]; simpl; [reflexivity|now rewrite IH]. Qed.

(** C1 (as amended).  For a name that does not start with an underscore,
    the blob is addressed at <storageURL>/<dataPath>/<name>: the object
    lies directly inside the data path, without a directory for the first
    two characters of its id. *)
Theorem blobUrl_inside_data_path (f : AzureStorage) (name : string) (c : ascii) (rest : string) :
  name = String c rest ->
  c <> "_"%char ->
  Azure.blobPath f name = storageURL f ++ "/" ++ dataPath f ++ "/" ++ name /\
  Azure.blobUrl f name = url_Parse (storageURL f ++ "/" ++ dataPath f ++ "/" ++ name).
Proof.
  intros -> Hc.
  assert (Hp : Azure.blobPath f (String c rest)
               = storageURL f ++ "/" ++ dataPath f ++ "/" ++ String c rest).
  { unfold Azure.blobPath. apply Ascii.eqb_neq in Hc. rewrite Hc.
    f_equal. cbn [append]. f_equal. apply append_assoc. }
  split; [exact Hp|]. unfold Azure.blobUrl. cbn [String.eqb]. now rewrite Hp.
Qed.


Lemma error_eqb_refl (e : error) : error_eqb e e = true.
Proof. unfold error_eqb. apply String.eqb_refl. Qed.

Lemma fatal_ErrMetadataOnly : Azure.fatal (Some ErrMetadataOnly) = false.
Proof. unfold Azure.fatal. now rewrite error_eqb_refl. Qed.

(** C8.  When the cache has no usable entry for the object, the first
    request of [GetWithRange] starts at offset 0 and asks for 64 KiB + 288
    bytes.  When that request returns a non-empty blob, the header is read
    from it; when the header and the metadata parse, the next calls are, in
    this order, the cancellation of the request, the insertion of the
    parsed header fields and metadata in the cache, and the release of the
    lock, and only after them is the data range requested, once. *)
Theorem GetWithRange_cache_miss
  (f : AzureStorage) (name : string) (rng : RequestRange) (hasCb : bool) (w : W)
  (u : URL) (cached : CacheEntry) :
  Azure.blobUrl f name = Ok u ->
  fst (h (CacheGet name) (snd (h MuxLock w))) = cached ->
  cache_miss cached = true ->
  Azure.headerFetchLength = 64 * 1024 + 288 /\
  exists ans tail,
    trace_of h (Azure.GetWithRange f name rng hasCb) w =
      Ev MuxLock tt :: Ev (CacheGet name) cached
      :: Ev (Download CtxInner u 0 Azure.headerFetchLength noAccessConditions) ans :: tail /\
    forall resp, ans = inl resp -> ContentLength resp <> 0 ->
      exists hd tail1,
        tail = Ev (ReadHeader CtxInner resp (masterKey f)) hd :: tail1 /\
        forall md sz, hdMetadata hd = Ok (md, sz) ->
          let entry := mkEntry (hdVersion hd) (hdLength hd) (hdWrappedKey hd) sz (Some md) in
          let rng' := SetFileSize
                        (set_MetadataOffset (set_HeaderOffset rng (hdLength hd)) sz)
                        (Size md) in
          exists tail2,
            tail1 = Ev Cancel tt :: Ev (CacheAdd name entry) tt :: Ev MuxUnlock tt :: tail2 /\
            downloads tail2 = [(CtxCaller, u, StartBytes rng', LengthBytes rng')].
Proof.
  intros Hurl Hcached Hmiss. split; [reflexivity|].
  unfold trace_of, Azure.GetWithRange, Azure.DecryptFile, Azure.getRange. rewrite Hurl.
  cbn [bind trigger run].
  destruct (h MuxLock w) as [[] w1]. cbn [snd] in Hcached.
  destruct (h (CacheGet name) w1) as [cached' w2]. cbn [fst] in Hcached. subst cached'.
  unfold cache_miss in Hmiss. rewrite Hmiss.
  cbn [bind trigger run].
  destruct (h (Download CtxInner u 0 Azure.headerFetchLength noAccessConditions) w2)
    as [[resp|e] w3].
  - destruct (ContentLength resp =? 0) eqn:Hz.
    + run_to_end h. eexists _, _. split; [reflexivity|].
      intros resp' Heq Hnz. injection Heq as <-. apply Z.eqb_eq in Hz. contradiction.
    + cbn [bind trigger run].
      destruct (h (ReadHeader CtxInner resp (masterKey f)) w3) as [hd w4].
      destruct (hdMetadata hd) as [[md sz]|e] eqn:Hmd.
      * cbn [bind trigger run]. hstep h. cbn [bind trigger run].
        rewrite fatal_ErrMetadataOnly. cbn [bind trigger run]. hstep h.
        cbn [metadata headerLength metadataLength bind trigger run]. hstep h.
        destruct hasCb; cbn [bind trigger run]; repeat hstep h;
          match goal with
          | a : (DownloadResponse + azerror)%type |- _ => destruct a as [resp2|e2]
          end;
          cbn [bind trigger run];
          try (destruct (ContentLength resp2 =? 0)); run_to_end h;
          try match goal with a : option error |- _ => destruct a end;
          (eexists _, _; split; [reflexivity|];
           intros resp' Heq Hnz; injection Heq as <-;
           eexists _, _; split; [reflexivity|];
           intros md' sz' Heq; rewrite Hmd in Heq; injection Heq as <- <-;
           eexists; split; reflexivity).
      * cbn [bind trigger run]. destruct (Azure.fatal (Some e)); run_to_end h.
        -- eexists _, _. split; [reflexivity|].
           intros resp' Heq Hnz. injection Heq as <-.
           eexists _, _. split; [reflexivity|]. intros ? ? Heq. rewrite Hmd in Heq. discriminate.
        -- destruct (metadata cached) as [md|]; run_to_end h.
           ++ destruct hasCb; run_to_end h;
                match goal with
                | a : (DownloadResponse + azerror)%type |- _ => destruct a as [resp2|e2]
                end;
                cbn [bind trigger run];
                try (destruct (ContentLength resp2 =? 0)); run_to_end h;
                try match goal with a : option error |- _ => destruct a end;
                (eexists _, _; split; [reflexivity|];
                 intros resp' Heq Hnz; injection Heq as <-;
                 eexists _, _; split; [reflexivity|]; intros ? ? Heq; rewrite Hmd in Heq; discriminate).
           ++ eexists _, _. split; [reflexivity|].
              intros resp' Heq Hnz. injection Heq as <-.
              eexists _, _. split; [reflexivity|]. intros ? ? Heq. rewrite Hmd in Heq.
              discriminate.
  - run_to_end h. eexists _, _. split; [reflexivity|]. intros; discriminate.
Qed.

(** Case analysis on every answer of the environment and on every test
    of the program in the goal. *)
Ltac run_cases h :=
  repeat first
    [ hstep h
    | progress run_cbn
    | match goal with
      | |- context [run h (match ?x with _ => _ end) _] =>
          let H := fresh "Hcase" in destruct x eqn:H
      | |- context [bind (match ?x with _ => _ end) _] =>
          let H := fresh "Hcase" in destruct x eqn:H
      end ].

(** C10.  When a download is answered with a blob of content length
    zero, [RawGet], [Get] and [GetWithRange] return found = false with a
    nil tag and a nil error; when a download is answered with status 404,
    the blob being absent, they return the same: found = false, a nil tag
    and a nil error.  The caller cannot tell an empty blob from an absent
    one. *)
Theorem empty_blob_reported_absent
  (f : AzureStorage) (name : string) (start count : Z) (rng : RequestRange)
  (hasCb : bool) (w : W) :
  (existsb empty_download (trace_of h (Azure.RawGet f name start count) w) = true ->
   result_of h (Azure.RawGet f name start count) w = Returned (false, TagNil, None)) /\
  (existsb empty_download (trace_of h (Azure.Get f name hasCb) w) = true ->
   result_of h (Azure.Get f name hasCb) w = Returned (false, TagNil, None)) /\
  (existsb empty_download (trace_of h (Azure.GetWithRange f name rng hasCb) w) = true ->
   exists rng',
     result_of h (Azure.GetWithRange f name rng hasCb) w
     = Returned (rng', (false, TagNil, None))) /\
  (existsb absent_download (trace_of h (Azure.RawGet f name start count) w) = true ->
   result_of h (Azure.RawGet f name start count) w = Returned (false, TagNil, None)) /\
  (existsb absent_download (trace_of h (Azure.Get f name hasCb) w) = true ->
   result_of h (Azure.Get f name hasCb) w = Returned (false, TagNil, None)) /\
  (existsb absent_download (trace_of h (Azure.GetWithRange f name rng hasCb) w) = true ->
   exists rng',
     result_of h (Azure.GetWithRange f name rng hasCb) w
     = Returned (rng', (false, TagNil, None))).
Proof.
  unfold trace_of, result_of, Azure.RawGet, Azure.Get, Azure.GetWithRange,
    Azure.DecryptFile, Azure.getRange.
  destruct (Azure.blobUrl f name) as [u|e]; [|repeat split; simpl; discriminate].
  repeat split; run_cases h; unfold empty_download, absent_download; simpl;
    repeat match goal with H : (ContentLength _ =? 0) = _ |- _ => rewrite H end;
    simpl; intros; try discriminate; eauto;
    repeat match goal with
    | e : azerror |- _ => destruct e as [code st|msg]
    | H : context [_ =? StatusNotFound] |- _ =>
        rewrite ?orb_false_r in H; cbn [Azure.downloadFailed]; rewrite H
    end;
    simpl in *; try discriminate; eauto.
Qed.

End AzureFacts.

(* ================================================================== *)
(** * The properties on the sample environment *)

Section SampleFacts.
Import Sample.

Lemma len_pad (n : nat) (b : bytes) : len (pad n b) = Z.of_nat n.
Proof.
  unfold len, pad. rewrite length_firstn, length_app, repeat_length. lia.
Qed.

Lemma firstn_length_app {A} (a b : list A) : firstn (List.length a) (a ++ b) = a.
Proof. induction a as [|x a IH]; simpl; [reflexivity|now rewrite IH]. Qed.

Lemma unwrap_wrap (wk key : bytes) : unwrap wk (wrap wk key) = Ok key.
Proof.
  unfold unwrap, wrap. f_equal.
  replace (List.length (repeat x00 12 ++ key ++ pad 16 wk) - 28)%nat with (List.length key).
  - change (skipn 12 (repeat x00 12 ++ key ++ pad 16 wk)) with (key ++ pad 16 wk)%list.
    apply firstn_length_app.
  - rewrite !length_app, repeat_length.
    pose proof (len_pad 16 wk) as H. unfold len in H. lia.
Qed.

Lemma len_wrap (wk key : bytes) : len (wrap wk key) = 12 + len key + 16.
Proof.
  unfold wrap, len. rewrite !length_app, repeat_length.
  pose proof (len_pad 16 wk) as H. unfold len in H. lia.
Qed.

Lemma sample_crypto_contract (s : Script) :
  salt s = Ok (repeat x07 16) -> crypto_contract (D := deps) (env s).
Proof.
  intro Hs. split; [|split].
  - intros p s0 k c H. injection H as <- <-. split; apply len_pad.
  - intros w s0 H. simpl in H. rewrite Hs in H. injection H as <-. reflexivity.
  - intros wk key w c H. simpl in H. injection H as <-.
    split; [apply len_wrap | apply unwrap_wrap].
Defined.

Lemma sample_AddPassphrase_appends : AddPassphrase_appends (D := deps).
Proof. intros info s c wr info' H. injection H as <-. reflexivity. Defined.

(** GPG is tried on the slots in order; the second attempt succeeds and
    nothing is prompted for. *)
Example GetMasterKey_sample_gpg :
  run (env second_key_decrypts) (Cmd.GetMasterKey (D := deps) gpg_info) 0%nat
  = (Returned (repeat x01 32, "0xBEEF", "", None), 2%nat,
     [Ev (GPGDecrypt [x02; x03]) (Err (errors_New "gpg: decryption failed"));
      Ev (GPGDecrypt [x04; x05]) (Ok (repeat x01 32))]).
Proof. reflexivity. Qed.

(** GPG fails on both slots; the passphrase is prompted for once. *)
Example GetMasterKey_sample_prompt :
  prompts (trace_of (env hunter2) (Cmd.GetMasterKey (D := deps) gpg_info) 0%nat) = 1%nat /\
  List.length (trace_of (env hunter2) (Cmd.GetMasterKey (D := deps) gpg_info) 0%nat) = 3%nat.
Proof. split; reflexivity. Qed.

Lemma UpgradeInfoFile_v2_only_version_witness :
  exists info',
    run (env hunter2) (Cmd.UpgradeInfoFile (D := deps) v2_info) 0%nat
      = (Returned (info', ("", None)), 0%nat, []) /\
    Version info' = 3 /\
    Keys info' = Keys v2_info /\
    DataPath info' = DataPath v2_info /\
    Salt info' = Salt v2_info /\
    ConfirmationHash info' = ConfirmationHash v2_info.
Proof.
  apply (@UpgradeInfoFile_v2_only_version deps nat (env hunter2) v2_info 0%nat).
  reflexivity.
Defined.

Lemma NewInfoFile_hides_AddKey_failure_witness :
  result_of (env no_entropy) (Cmd.NewInfoFile (D := deps) "") 0%nat
  = Returned (None, "", None).
Proof.
  eapply (@NewInfoFile_hides_AddKey_failure deps nat (env no_entropy) "" 0%nat);
    reflexivity.
Defined.

Lemma GetMasterKey_wrong_passphrase_witness :
  legacy_accepts (D := deps) "wrong" upgraded_info = false /\
  slot_accepts (D := deps) "wrong" new_slot = false /\
  result_of (env wrong) (Cmd.GetMasterKey (D := deps) upgraded_info) 0%nat
  = Returned ([], "", "Cannot unlock the repository", Some (errors_New "Invalid passphrase")).
Proof.
  split; [reflexivity|]. split; [reflexivity|].
  apply (@GetMasterKey_wrong_passphrase deps nat (env wrong) upgraded_info "wrong" 0%nat).
  - intros k w' [].
  - reflexivity.
  - reflexivity.
  - intros k [<-|[]]. reflexivity.
Defined.

Lemma UpgradeInfoFile_v1_keeps_master_key_witness :
  result_of (env hunter2) (Cmd.UpgradeInfoFile (D := deps) v1_info) 0%nat
    = Returned (upgraded_info, ("", None)) /\
  result_of (env hunter2) (Cmd.GetMasterKey (D := deps) v1_info) 0%nat
    = Returned (legacy_key, "LegacyKey", "", None) /\
  result_of (env hunter2) (Cmd.GetMasterKey (D := deps) upgraded_info) 0%nat
    = Returned (legacy_key, "p:0", "", None).
Proof.
  assert (Hup : result_of (env hunter2) (Cmd.UpgradeInfoFile (D := deps) v1_info) 0%nat
                = Returned (upgraded_info, ("", None))) by reflexivity.
  split; [exact Hup|].
  destruct (@UpgradeInfoFile_v1_keeps_master_key deps nat (env hunter2)
              v1_info upgraded_info "hunter2" legacy_key 0%nat) as (_ & _ & _ & _ & _ & H).
  - apply sample_crypto_contract. reflexivity.
  - apply sample_AddPassphrase_appends.
  - reflexivity.
  - vm_compute. reflexivity.
  - vm_compute. reflexivity.
  - reflexivity.
  - reflexivity.
  - exact Hup.
  - destruct (H 0%nat) as [_ Hprompted].
    destruct Hprompted as [H1 H2]; [vm_compute; discriminate|].
    split; [exact H1|]. apply H2. intros k Hk. discriminate Hk.
Defined.

(** C3, as the specification states it, fails: a version-1 info file
    whose legacy fields accept "hunter2" and which already holds a
    passphrase slot that accepts "hunter2" and wraps another key.  The
    upgrade succeeds, brings the version to 3, clears the legacy fields
    and appends a slot; the original unlocks to the legacy key, the
    upgraded file to the key of the older slot. *)
Lemma UpgradeInfoFile_v1_changes_master_key :
  result_of (env hunter2) (Cmd.UpgradeInfoFile (D := deps) v1_stale) 0%nat
    = Returned (upgraded_stale, ("", None)) /\
  Version upgraded_stale = 3 /\
  Salt upgraded_stale = [] /\
  ConfirmationHash upgraded_stale = [] /\
  Keys upgraded_stale = (Keys v1_stale ++ [new_slot])%list /\
  slot_unwrap (D := deps) "hunter2" new_slot = Ok legacy_key /\
  result_of (env hunter2) (Cmd.GetMasterKey (D := deps) v1_stale) 0%nat
    = Returned (legacy_key, "LegacyKey", "", None) /\
  result_of (env hunter2) (Cmd.GetMasterKey (D := deps) upgraded_stale) 0%nat
    = Returned (stale_key, "p:0", "", None) /\
  stale_key <> legacy_key.
Proof.
  repeat split; try reflexivity. vm_compute. discriminate.
Qed.

(** A version-1 info file with a GPG slot that decrypts: the original
    and the upgraded file unlock to the same result. *)
Example UpgradeInfoFile_sample_gpg :
  exists info',
    result_of (env second_key_decrypts) (Cmd.UpgradeInfoFile (D := deps) v1_gpg) 0%nat
      = Returned (info', ("", None)) /\
    result_of (env second_key_decrypts) (Cmd.GetMasterKey (D := deps) info') 0%nat
      = Returned (repeat x01 32, "0xBEEF", "", None) /\
    result_of (env second_key_decrypts) (Cmd.GetMasterKey (D := deps) v1_gpg) 0%nat
      = Returned (repeat x01 32, "0xBEEF", "", None).
Proof. eexists. repeat split. Qed.

Lemma RemovePath_reports_witness :
  let tr := trace_of (repo_env two_files) (Repository.RemovePath "/docs/") 0%nat in
  map fst (deletions tr) = ["id-1"; "id-2"] /\
  map Path (sent tr) = ["/docs/a"; "/docs/b"] /\
  map Status (sent tr) = [RepositoryStatusInternalError; RepositoryStatusOK].
Proof.
  destruct (@RemovePath_reports nat (repo_env two_files) "/docs/" 0%nat 1%nat
              ["id-1"; "id-2"] ["/docs/a"; "/docs/b"] None eq_refl eq_refl)
    as (_ & Hd & Hp & Hs).
  intro tr. split; [exact Hd|]. split; [exact Hp|].
  subst tr. rewrite Hs. reflexivity.
Defined.

(** C6, as the specification states it, fails: the removal from the
    index returns no entry, and the message sent has status InternalError,
    not NotFound. *)
Lemma RemovePath_index_failure_not_NotFound :
  let answer := fst (repo_env index_fails (IndexDeleteFile "/docs/") 0%nat) in
  let tr := trace_of (repo_env index_fails) (Repository.RemovePath "/docs/") 0%nat in
  fst (fst answer) = [] /\
  map Status (sent tr) = [RepositoryStatusInternalError] /\
  map Status (sent tr) <> [RepositoryStatusNotFound].
Proof.
  split; [reflexivity|]. split; [reflexivity|]. vm_compute. discriminate.
Qed.

Lemma blobUrl_inside_data_path_witness :
  Azure.blobPath azure object_id
    = "https://acct.blob.core.windows.net/box/data/0f8fad5b-d9cb-469f-a165-70867728950e" /\
  Azure.blobUrl (F := fsdeps) azure object_id
    = Ok (mkURL "https://acct.blob.core.windows.net/box/data/0f8fad5b-d9cb-469f-a165-70867728950e").
Proof.
  destruct (@blobUrl_inside_data_path fsdeps azure object_id "0"%char
              "f8fad5b-d9cb-469f-a165-70867728950e" eq_refl) as [H1 H2].
  - discriminate.
  - split; [rewrite H1 | rewrite H2]; reflexivity.
Defined.

(** C1, as the specification states it, fails: the path of an object
    has no directory named by the first two characters of its id. *)
Lemma blobUrl_not_sharded :
  Azure.blobPath azure object_id <> sharded_path azure object_id.
Proof. vm_compute. discriminate. Qed.

(** A first write of the sample object, and a write over version "0x8D8". *)
Example RawSet_sample_requests :
  trace_of (fs_env 10) (Azure.RawSet (F := fsdeps) azure object_id [x01] TagNil) 0%nat
  = [Ev (UploadStream (mkURL (Azure.blobPath azure object_id)) [x01] 3145728 2
           (mkAC "" "*")) (inl "0x8D9")] /\
  trace_of (fs_env 10) (Azure.RawSet (F := fsdeps) azure object_id [x01] (TagETag "0x8D8")) 0%nat
  = [Ev (UploadStream (mkURL (Azure.blobPath azure object_id)) [x01] 3145728 2
           (mkAC "0x8D8" "")) (inl "0x8D9")].
Proof. split; reflexivity. Qed.


Lemma GetWithRange_cache_miss_witness :
  exists ans tail,
    trace_of (fs_env 1048576)
      (Azure.GetWithRange (F := fsdeps) azure object_id boundary_range false) 0%nat
    = Ev MuxLock tt :: Ev (CacheGet object_id) (mkEntry 0 0 [] 0 None)
      :: Ev (Download CtxInner (mkURL (Azure.blobPath azure object_id)) 0
               Azure.headerFetchLength noAccessConditions) ans
      :: tail.
Proof.
  destruct (@GetWithRange_cache_miss fsdeps nat (fs_env 1048576) azure object_id boundary_range
              false 0%nat (mkURL (Azure.blobPath azure object_id))
              (mkEntry 0 0 [] 0 None) eq_refl eq_refl eq_refl)
    as (_ & ans & tail & Htr & _).
  exists ans, tail. exact Htr.
Defined.

(** The two requests of a ranged read of bytes 65535 and 65536 of the
    sample object: the header, then the two chunks that hold the range. *)
Example GetWithRange_sample_downloads :
  downloads (trace_of (fs_env 1048576)
               (Azure.GetWithRange (F := fsdeps) azure object_id boundary_range false) 0%nat)
  = [(CtxInner, mkURL (Azure.blobPath azure object_id), 0, 65824);
     (CtxCaller, mkURL (Azure.blobPath azure object_id), 64 + 120, 2 * (65536 + 16))].
Proof. reflexivity. Qed.

Lemma empty_blob_reported_absent_witness :
  (result_of (fs_env 0) (Azure.RawGet (F := fsdeps) azure object_id 0 0) 0%nat
     = Returned (false, TagNil, None) /\
   result_of (fs_env 0) (Azure.Get (F := fsdeps) azure object_id false) 0%nat
     = Returned (false, TagNil, None) /\
   exists rng',
     result_of (fs_env 0) (Azure.GetWithRange (F := fsdeps) azure object_id boundary_range false)
       0%nat
     = Returned (rng', (false, TagNil, None))) /\
  (result_of absent_env (Azure.RawGet (F := fsdeps) azure object_id 0 0) 0%nat
     = Returned (false, TagNil, None) /\
   result_of absent_env (Azure.Get (F := fsdeps) azure object_id false) 0%nat
     = Returned (false, TagNil, None) /\
   exists rng',
     result_of absent_env (Azure.GetWithRange (F := fsdeps) azure object_id boundary_range false)
       0%nat
     = Returned (rng', (false, TagNil, None))).
Proof.
  destruct (@empty_blob_reported_absent fsdeps nat (fs_env 0) azure object_id 0 0
              boundary_range false 0%nat) as (H1 & H2 & H3 & _).
  destruct (@empty_blob_reported_absent fsdeps nat absent_env azure object_id 0 0
              boundary_range false 0%nat) as (_ & _ & _ & H4 & H5 & H6).
  split.
  - split; [apply H1; reflexivity|]. split; [apply H2; reflexivity|].
    apply H3. reflexivity.
  - split; [apply H4; reflexivity|]. split; [apply H5; reflexivity|].
    apply H6. reflexivity.
Defined.

End SampleFacts.

(* ================================================================== *)
(** * Further properties of package cmd *)

Section CmdMore.
Context {D : Deps} {W : Type} (h : forall X, cmdE X -> W -> X * W).

(** Once GPG has decrypted no slot and the passphrase is entered, the
    results of [GetMasterKey] are those of the legacy test followed by
    the second loop. *)
Lemma GetMasterKey_by_passphrase (info : InfoFile) (pass : string) (w : W) :
  (forall k w', In k (gpg_slots info) ->
                is_ok (fst (h (GPGDecrypt (MasterKey k)) w')) = false) ->
  (forall w', fst (h PromptRun w') = Ok pass) ->
  result_of h (Cmd.GetMasterKey info) w =
  Returned match Cmd.legacyKey info pass with
           | Some key => (key, "LegacyKey", "", None)
           | None => Cmd.passphraseLoop pass (Keys info) 0
           end.
Proof.
  intros Hgpg Hprompt. unfold Cmd.GetMasterKey.
  match goal with |- context [Cmd.gpgLoop _ ?rest] => set (after := rest) end.
  destruct (@gpgLoop_all_fail W h (Keys info) after w Hgpg) as [w' ->].
  subst after. unfold result_of. simpl.
  pose proof (Hprompt w') as Hp.
  destruct (h PromptRun w') as [ans w1]. simpl in Hp. subst ans. simpl.
  destruct (Cmd.legacyKey info pass); reflexivity.
Qed.

(** The second loop stops at the first slot that accepts the
    passphrase: the slots before it only advance the counter. *)
Lemma passphraseLoop_at_slot (pass : string) (pre : list InfoFileKey) (k : InfoFileKey)
  (post : list InfoFileKey) (i : nat) (wk : bytes) :
  (forall k', In k' pre -> slot_accepts pass k' = false) ->
  is_passphrase_slot k = true ->
  KeyFromPassphrase pass (KeySalt k) = Ok (wk, KeyConfirmationHash k) ->
  Cmd.passphraseLoop pass (pre ++ k :: post) i =
  match UnwrapKey wk (MasterKey k) with
  | Err e => ([], "", "Error while unwrapping the master key", Some e)
  | Ok key => (key, "p:" ++ Itoa (i + List.length (filter is_passphrase_slot pre)), "", None)
  end.
Proof.
  intros Hrej Hslot Hkdf.
  rewrite (@passphraseLoop_skip D pass pre (k :: post) i Hrej).
  unfold is_passphrase_slot in Hslot.
  apply andb_prop in Hslot as [Hslot Hc]. apply andb_prop in Hslot as [Hslot Hs].
  apply andb_prop in Hslot as [Hg Hm].
  apply negb_true_iff in Hm, Hs, Hc.
  cbn [Cmd.passphraseLoop]. rewrite Hg, Hm, Hs, Hc. cbn [negb orb].
  rewrite Hkdf, bytes_eqb_refl. reflexivity.
Qed.

(** X1.  An info file whose version is neither 1 nor 2 is refused by
    [UpgradeInfoFile]: it is left as it is, the error is reported and no
    external call is made. *)
Theorem UpgradeInfoFile_refuses_other_versions (info : InfoFile) (w : W) :
  Version info <> 1 ->
  Version info <> 2 ->
  run h (Cmd.UpgradeInfoFile info) w =
  (Returned (info, ("Unsupported repository version",
                    Some (errors_New "This repository has already been upgraded or is using an unsupported version"))),
   w, []).
Proof.
  intros H1 H2. unfold Cmd.UpgradeInfoFile.
  apply Z.eqb_neq in H1, H2. rewrite H1, H2. reflexivity.
Qed.

(** X2.  In every environment [UpgradeInfoFile] returns; when it
    reports no error the version of the info file is 3 and the message is
    empty, and when it reports an error the info file is the one it was
    given. *)
Theorem UpgradeInfoFile_all_or_nothing (info : InfoFile) (w : W) :
  exists info' msg err,
    result_of h (Cmd.UpgradeInfoFile info) w = Returned (info', (msg, err)) /\
    match err with
    | None => Version info' = 3 /\ msg = ""
    | Some _ => info' = info
    end.
Proof.
  unfold result_of, Cmd.UpgradeInfoFile, Cmd.upgradeInfoFileV1.
  destruct (negb (Version info =? 1) && negb (Version info =? 2)).
  { simpl. eexists _, _, _. split; [reflexivity|]. reflexivity. }
  destruct (Version info <? 2); [|simpl; eexists _, _, _; split; reflexivity || (split; reflexivity)].
  destruct ((0 <? len (Salt info)) && (0 <? len (ConfirmationHash info)));
    [|simpl; eexists _, _, _; split; reflexivity || (split; reflexivity)].
  cbn [bind trigger run Cmd.PromptPassphrase].
  destruct (h PromptRun w) as [[pass|e] w1]; cbn [bind trigger run];
    [|eexists _, _, _; split; reflexivity].
  destruct (KeyFromPassphrase pass (Salt info)) as [[key ch]|e];
    [|simpl; eexists _, _, _; split; reflexivity].
  destruct (negb (bytes_eqb (ConfirmationHash info) ch));
    [simpl; eexists _, _, _; split; reflexivity|].
  cbn [bind trigger run].
  destruct (h NewSalt w1) as [[newSalt|e] w2]; cbn [bind trigger run];
    [|eexists _, _, _; split; reflexivity].
  destruct (KeyFromPassphrase pass newSalt) as [[wk newHash]|e];
    [|simpl; eexists _, _, _; split; reflexivity].
  cbn [bind trigger run].
  destruct (h (WrapKey wk key) w2) as [[wrapped|e] w3]; cbn [bind trigger run];
    [|eexists _, _, _; split; reflexivity].
  destruct (AddPassphrase info newSalt newHash wrapped) as [info1|e];
    simpl; eexists _, _, _; split; reflexivity || (split; reflexivity).
Qed.

(** X3.  When the passphrase entered does not match the legacy
    confirmation hash of a version-1 info file, [UpgradeInfoFile] reports
    "Invalid passphrase", leaves the info file as it is, and has made no
    call but the prompt: no salt is drawn and no key is wrapped. *)
Theorem UpgradeInfoFile_wrong_passphrase (info : InfoFile) (pass : string) (w : W) :
  Version info = 1 ->
  0 < len (Salt info) ->
  0 < len (ConfirmationHash info) ->
  fst (h PromptRun w) = Ok pass ->
  legacy_accepts pass info = false ->
  result_of h (Cmd.UpgradeInfoFile info) w =
    Returned (info, ("Cannot unlock the repository", Some (errors_New "Invalid passphrase"))) /\
  trace_of h (Cmd.UpgradeInfoFile info) w = [Ev PromptRun (Ok pass)].
Proof.
  intros Hv Hs Hc Hp Hrej.
  unfold result_of, trace_of, Cmd.UpgradeInfoFile, Cmd.upgradeInfoFileV1.
  rewrite Hv. apply Z.ltb_lt in Hs, Hc. rewrite Hs, Hc.
  cbn [Z.eqb Pos.eqb negb andb Z.ltb Z.compare Pos.compare Pos.compare_cont
       bind trigger run Cmd.PromptPassphrase].
  destruct (h PromptRun w) as [ans w1]. cbn [fst] in Hp. subst ans.
  cbn [bind trigger run].
  unfold legacy_accepts in Hrej.
  destruct (KeyFromPassphrase pass (Salt info)) as [[key ch]|e].
  - rewrite Hrej. split; reflexivity.
  - split; reflexivity.
Qed.

(** X4.  A version-1 info file that lacks a legacy salt or a legacy
    confirmation hash (its keys being GPG slots) is upgraded without any
    external call: only the version changes, to 3. *)
Theorem UpgradeInfoFile_v1_without_legacy (info : InfoFile) (w : W) :
  Version info = 1 ->
  len (Salt info) = 0 \/ len (ConfirmationHash info) = 0 ->
  run h (Cmd.UpgradeInfoFile info) w = (Returned (set_Version info 3, ("", None)), w, []).
Proof.
  intros Hv Hempty. unfold Cmd.UpgradeInfoFile, Cmd.upgradeInfoFileV1. rewrite Hv.
  replace ((0 <? len (Salt info)) && (0 <? len (ConfirmationHash info))) with false.
  - reflexivity.
  - symmetry. apply andb_false_iff.
    destruct Hempty as [H0|H0]; [left|right]; rewrite H0; reflexivity.
Qed.

Lemma passphraseLoop_shape (pass : string) (keys : list InfoFileKey) (i : nat) :
  exists key id msg err,
    Cmd.passphraseLoop pass keys i = (key, id, msg, err) /\
    match err with
    | None => msg = ""
    | Some _ => key = [] /\ id = ""
    end.
Proof.
  revert i. induction keys as [|k ks IH]; intro i; cbn [Cmd.passphraseLoop].
  - eexists _, _, _, _. split; [reflexivity|]. split; reflexivity.
  - destruct (negb (GPGKey k =? "")%string || (len (MasterKey k) =? 0)); [apply IH|].
    destruct ((len (KeySalt k) =? 0) || (len (KeyConfirmationHash k) =? 0)); [apply IH|].
    destruct (KeyFromPassphrase pass (KeySalt k)) as [[wk ch]|e]; [|apply IH].
    destruct (bytes_eqb (KeyConfirmationHash k) ch); [|apply IH].
    destruct (UnwrapKey wk (MasterKey k)) as [key|e];
      eexists _, _, _, _; (split; [reflexivity|]); [reflexivity | split; reflexivity].
Qed.

(** X5.  In every environment [GetMasterKey] returns either a nil
    error with an empty error message, or an error with a nil master key
    and an empty key id: a key never comes with an error. *)
Theorem GetMasterKey_key_or_error (info : InfoFile) (w : W) :
  exists key id msg err,
    result_of h (Cmd.GetMasterKey info) w = Returned (key, id, msg, err) /\
    match err with
    | None => msg = ""
    | Some _ => key = [] /\ id = ""
    end.
Proof.
  unfold result_of, Cmd.GetMasterKey.
  match goal with |- context [Cmd.gpgLoop _ ?rest] => set (after := rest) end.
  destruct (@gpgLoop_run W h (Keys info) after w) as
    [(tried & k & later & errs & key & w' & _ & _ & Hr) | (errs & w' & _ & Hr)];
    rewrite Hr; clear Hr.
  - eexists _, _, _, _. split; reflexivity.
  - subst after. cbn [bind trigger run Cmd.PromptPassphrase].
    destruct (h PromptRun w') as [[pass|e] w1]; cbn [bind trigger run fst].
    + destruct (Cmd.legacyKey info pass) as [key|]; cbn [run fst].
      * eexists _, _, _, _. split; reflexivity.
      * destruct (@passphraseLoop_shape pass (Keys info) 0)
          as (key & id & msg & err & -> & Hshape).
        eexists _, _, _, _. split; [reflexivity|exact Hshape].
    + eexists _, _, _, _. split; [reflexivity|]. split; reflexivity.
Qed.

(** X6.  With no GPG slot decrypting and the legacy fields absent or
    rejecting the passphrase, [GetMasterKey] unlocks with the first slot
    whose confirmation hash accepts the passphrase; the key id is "p:"
    followed by the number of passphrase slots that precede it, GPG slots
    and incomplete slots not being counted. *)
Theorem GetMasterKey_first_accepting_slot
  (info : InfoFile) (pre : list InfoFileKey) (k : InfoFileKey) (post : list InfoFileKey)
  (pass : string) (wk key : bytes) (w : W) :
  Keys info = (pre ++ k :: post)%list ->
  (forall k' w', In k' (gpg_slots info) ->
                 is_ok (fst (h (GPGDecrypt (MasterKey k')) w')) = false) ->
  (forall w', fst (h PromptRun w') = Ok pass) ->
  legacy_accepts pass info = false ->
  (forall k', In k' pre -> slot_accepts pass k' = false) ->
  is_passphrase_slot k = true ->
  KeyFromPassphrase pass (KeySalt k) = Ok (wk, KeyConfirmationHash k) ->
  UnwrapKey wk (MasterKey k) = Ok key ->
  result_of h (Cmd.GetMasterKey info) w =
  Returned (key, "p:" ++ Itoa (List.length (filter is_passphrase_slot pre)), "", None).
Proof.
  intros HK Hgpg Hprompt Hleg Hrej Hslot Hkdf Hun.
  rewrite (@GetMasterKey_by_passphrase info pass w Hgpg Hprompt).
  rewrite (@legacyKey_rejects D _ _ Hleg), HK.
  rewrite (@passphraseLoop_at_slot pass pre k post 0 wk Hrej Hslot Hkdf), Hun.
  reflexivity.
Qed.

(** X7.  When the first slot whose confirmation hash accepts the
    passphrase cannot be unwrapped, [GetMasterKey] fails with the error
    of the unwrapping and a nil key: the slots after it are not tried. *)
Theorem GetMasterKey_unwrap_failure_is_final
  (info : InfoFile) (pre : list InfoFileKey) (k : InfoFileKey) (post : list InfoFileKey)
  (pass : string) (wk : bytes) (e : error) (w : W) :
  Keys info = (pre ++ k :: post)%list ->
  (forall k' w', In k' (gpg_slots info) ->
                 is_ok (fst (h (GPGDecrypt (MasterKey k')) w')) = false) ->
  (forall w', fst (h PromptRun w') = Ok pass) ->
  legacy_accepts pass info = false ->
  (forall k', In k' pre -> slot_accepts pass k' = false) ->
  is_passphrase_slot k = true ->
  KeyFromPassphrase pass (KeySalt k) = Ok (wk, KeyConfirmationHash k) ->
  UnwrapKey wk (MasterKey k) = Err e ->
  result_of h (Cmd.GetMasterKey info) w =
  Returned ([], "", "Error while unwrapping the master key", Some e).
Proof.
  intros HK Hgpg Hprompt Hleg Hrej Hslot Hkdf Hun.
  rewrite (@GetMasterKey_by_passphrase info pass w Hgpg Hprompt).
  rewrite (@legacyKey_rejects D _ _ Hleg), HK.
  rewrite (@passphraseLoop_at_slot pass pre k post 0 wk Hrej Hslot Hkdf), Hun.
  reflexivity.
Qed.

(** X8.  When no GPG slot decrypts and the prompt fails, [GetMasterKey]
    fails with the error of the prompt under the message "Error getting
    passphrase", whatever the info file holds. *)
Theorem GetMasterKey_prompt_failure (info : InfoFile) (e : error) (w : W) :
  (forall k w', In k (gpg_slots info) ->
                is_ok (fst (h (GPGDecrypt (MasterKey k)) w')) = false) ->
  (forall w', fst (h PromptRun w') = Err e) ->
  result_of h (Cmd.GetMasterKey info) w =
  Returned ([], "", "Error getting passphrase", Some e).
Proof.
  intros Hgpg Hprompt. unfold Cmd.GetMasterKey.
  match goal with |- context [Cmd.gpgLoop _ ?rest] => set (after := rest) end.
  destruct (@gpgLoop_all_fail W h (Keys info) after w Hgpg) as [w' ->].
  subst after. unfold result_of. cbn [bind trigger run Cmd.PromptPassphrase].
  pose proof (Hprompt w') as Hp.
  destruct (h PromptRun w') as [ans w1]. cbn [fst] in Hp. subst ans. reflexivity.
Qed.

(** X9.  When no GPG slot decrypts and the legacy fields accept the
    passphrase, [GetMasterKey] returns the key derived from the passphrase
    and the legacy salt under the key id "LegacyKey", without looking at
    the passphrase slots, even if one of them accepts the passphrase. *)
Theorem GetMasterKey_legacy_first (info : InfoFile) (pass : string) (key : bytes) (w : W) :
  (forall k w', In k (gpg_slots info) ->
                is_ok (fst (h (GPGDecrypt (MasterKey k)) w')) = false) ->
  (forall w', fst (h PromptRun w') = Ok pass) ->
  0 < len (Salt info) ->
  0 < len (ConfirmationHash info) ->
  KeyFromPassphrase pass (Salt info) = Ok (key, ConfirmationHash info) ->
  result_of h (Cmd.GetMasterKey info) w = Returned (key, "LegacyKey", "", None).
Proof.
  intros Hgpg Hprompt Hs Hc Hkdf.
  rewrite (@GetMasterKey_by_passphrase info pass w Hgpg Hprompt).
  unfold Cmd.legacyKey. rewrite !len_pos_neqb by assumption. cbn [negb andb].
  rewrite Hkdf, bytes_eqb_refl. reflexivity.
Qed.

(** X10.  With a GPG key id, [AddKey] makes a single external call, the
    GPG encryption of the master key for that id: the passphrase is not
    prompted for and no salt is drawn.  When the encryption fails the info
    file is returned as it was, with the error. *)
Theorem AddKey_with_gpg_key (info : InfoFile) (key : bytes) (gpgKey : string) (w : W) :
  gpgKey <> "" ->
  let answer := fst (h (GPGEncrypt key gpgKey) w) in
  trace_of h (Cmd.AddKey info key gpgKey) w = [Ev (GPGEncrypt key gpgKey) answer] /\
  forall e, answer = Err e ->
    result_of h (Cmd.AddKey info key gpgKey) w =
    Returned (info, ("Error encrypting the master key with GPG", Some e)).
Proof.
  intros Hg. apply String.eqb_neq in Hg.
  unfold trace_of, result_of, Cmd.AddKey. rewrite Hg.
  cbn [bind trigger run].
  destruct (h (GPGEncrypt key gpgKey) w) as [[wrapped|e] w1]; cbn [fst].
  - destruct (AddGPGWrappedKey info gpgKey wrapped); simpl;
      (split; [reflexivity | intros ? ?; discriminate]).
  - simpl. split; [reflexivity|]. intros e' He. injection He as <-. reflexivity.
Qed.

(** What a successful [AddKey] with a passphrase leaves: one more slot,
    a passphrase slot that accepts the passphrase and unwraps to the
    master key. *)
Lemma AddKey_passphrase_slot (info info' : InfoFile) (key : bytes) (pass : string) (w : W) :
  crypto_contract h ->
  AddPassphrase_appends ->
  (forall w', fst (h PromptRun w') = Ok pass) ->
  result_of h (Cmd.AddKey info key "") w = Returned (info', ("", None)) ->
  exists slot wk,
    info' = append_key info slot /\
    is_passphrase_slot slot = true /\
    KeyFromPassphrase pass (KeySalt slot) = Ok (wk, KeyConfirmationHash slot) /\
    UnwrapKey wk (MasterKey slot) = Ok key.
Proof.
  intros (Hkdf & Hsalt & Hwrap) Happ Hprompt Hadd.
  unfold result_of, Cmd.AddKey in Hadd.
  cbn [String.eqb bind trigger run Cmd.PromptPassphrase] in Hadd.
  pose proof (Hprompt w) as Hp.
  destruct (h PromptRun w) as [ans w1]. cbn [fst] in Hp. subst ans.
  cbn [bind trigger run] in Hadd.
  pose proof (Hsalt w1) as Hsalt1.
  destruct (h NewSalt w1) as [[newSalt|e] w2]; cbn [fst] in Hsalt1;
    cbn [bind trigger run] in Hadd; [|discriminate].
  specialize (Hsalt1 _ eq_refl).
  destruct (KeyFromPassphrase pass newSalt) as [[wk newHash]|e] eqn:Hnew;
    [|discriminate].
  cbn [bind trigger run] in Hadd.
  pose proof (Hwrap wk key w2) as Hwrap2.
  destruct (h (WrapKey wk key) w2) as [[wrapped|e] w3]; cbn [fst] in Hwrap2;
    cbn [bind trigger run] in Hadd; [|discriminate].
  destruct (Hwrap2 _ eq_refl) as [Hlen Hun].
  destruct (AddPassphrase info newSalt newHash wrapped) as [info1|e] eqn:Hadd1;
    [|discriminate].
  apply Happ in Hadd1. subst info1. cbn [run fst] in Hadd. injection Hadd as <-.
  destruct (Hkdf _ _ _ _ Hnew) as [_ Hhash].
  exists (passphrase_slot newSalt newHash wrapped), wk.
  split; [reflexivity|]. split; [|split; assumption].
  unfold is_passphrase_slot, passphrase_slot. cbn [GPGKey MasterKey KeySalt KeyConfirmationHash].
  rewrite !len_pos_neqb; [reflexivity | | |]; unfold len in *; lia.
Qed.

(** Unlocking an info file to which a slot that accepts the passphrase
    has been appended, nothing before it accepting the passphrase. *)
Lemma unlock_appended_slot (info : InfoFile) (slot : InfoFileKey) (pass : string)
  (wk key : bytes) (w : W) :
  (forall w', fst (h PromptRun w') = Ok pass) ->
  (forall k w', In k (gpg_slots info) ->
                is_ok (fst (h (GPGDecrypt (MasterKey k)) w')) = false) ->
  legacy_accepts pass info = false ->
  (forall k, In k (Keys info) -> slot_accepts pass k = false) ->
  is_passphrase_slot slot = true ->
  KeyFromPassphrase pass (KeySalt slot) = Ok (wk, KeyConfirmationHash slot) ->
  UnwrapKey wk (MasterKey slot) = Ok key ->
  result_of h (Cmd.GetMasterKey (append_key info slot)) w =
  Returned (key, "p:" ++ Itoa (List.length (filter is_passphrase_slot (Keys info))), "", None).
Proof.
  intros Hprompt Hgpg Hleg Hrej Hslot Hkdf Hun.
  assert (Hg : GPGKey slot = "").
  { unfold is_passphrase_slot in Hslot.
    apply andb_prop in Hslot as [Hslot _]. apply andb_prop in Hslot as [Hslot _].
    apply andb_prop in Hslot as [Hslot _]. now apply String.eqb_eq. }
  rewrite (@GetMasterKey_by_passphrase (append_key info slot) pass w).
  - rewrite (@legacyKey_rejects D pass (append_key info slot) Hleg).
    cbn [append_key set_Keys Keys].
    rewrite (@passphraseLoop_at_slot pass (Keys info) slot [] 0 wk Hrej Hslot Hkdf), Hun.
    reflexivity.
  - unfold gpg_slots. cbn [append_key set_Keys Keys].
    rewrite (@filter_gpg_slot_app_passphrase (Keys info) slot Hg). exact Hgpg.
  - exact Hprompt.
Qed.

(** X11.  Adding a key with a passphrase and then unlocking with the
    same passphrase gives the master key back: when no GPG slot decrypts
    and nothing already in the info file accepts the passphrase, after a
    successful [AddKey] the results of [GetMasterKey] are the master key
    that was added and the key id of the appended slot. *)
Theorem AddKey_then_GetMasterKey
  (info info' : InfoFile) (key : bytes) (pass : string) (w : W) :
  crypto_contract h ->
  AddPassphrase_appends ->
  (forall w', fst (h PromptRun w') = Ok pass) ->
  (forall k w', In k (gpg_slots info) ->
                is_ok (fst (h (GPGDecrypt (MasterKey k)) w')) = false) ->
  legacy_accepts pass info = false ->
  (forall k, In k (Keys info) -> slot_accepts pass k = false) ->
  result_of h (Cmd.AddKey info key "") w = Returned (info', ("", None)) ->
  forall w2,
    result_of h (Cmd.GetMasterKey info') w2 =
    Returned (key, "p:" ++ Itoa (List.length (filter is_passphrase_slot (Keys info))), "", None).
Proof.
  intros Hc Happ Hprompt Hgpg Hleg Hrej Hadd w2.
  destruct (@AddKey_passphrase_slot info info' key pass w Hc Happ Hprompt Hadd)
    as (slot & wk & -> & Hslot & Hkdf & Hun).
  now apply unlock_appended_slot with (pass := pass) (wk := wk).
Qed.

(** X12.  Creating an info file with a passphrase and unlocking it with
    the same passphrase gives the generated master key: when [NewInfoFile]
    returns an info file, no GPG slot decrypts and nothing in the fresh
    info file accepts the passphrase, [GetMasterKey] on the result returns
    the key that [crypto.NewKey] produced. *)
Theorem NewInfoFile_then_GetMasterKey
  (info0 info' : InfoFile) (key : bytes) (pass : string) (w w1 w2 : W) :
  crypto_contract h ->
  AddPassphrase_appends ->
  (forall w', fst (h PromptRun w') = Ok pass) ->
  h InfofileNew w = (Ok info0, w1) ->
  h NewKey w1 = (Ok key, w2) ->
  (forall k w', In k (gpg_slots info0) ->
                is_ok (fst (h (GPGDecrypt (MasterKey k)) w')) = false) ->
  legacy_accepts pass info0 = false ->
  (forall k, In k (Keys info0) -> slot_accepts pass k = false) ->
  result_of h (Cmd.NewInfoFile "") w = Returned (Some info', "", None) ->
  forall w3,
    result_of h (Cmd.GetMasterKey info') w3 =
    Returned (key, "p:" ++ Itoa (List.length (filter is_passphrase_slot (Keys info0))), "", None).
Proof.
  intros Hc Happ Hprompt Hnew Hkey Hgpg Hleg Hrej Hres w3.
  unfold result_of, Cmd.NewInfoFile in Hres.
  cbn [bind trigger run] in Hres. rewrite Hnew in Hres.
  cbn [bind trigger run] in Hres. rewrite Hkey in Hres.
  rewrite run_bind in Hres.
  destruct (run h (Cmd.AddKey info0 key "") w2) as [[[[info1 [msg err]]|] w4] tr] eqn:Hadd;
    [|discriminate].
  destruct err as [e|]; [discriminate|].
  cbn [run fst] in Hres. injection Hres as <-.
  assert (Hadd' : result_of h (Cmd.AddKey info0 key "") w2 = Returned (info1, (msg, None)))
    by (unfold result_of; now rewrite Hadd).
  assert (Hmsg : msg = "").
  { clear - Hadd'. unfold result_of, Cmd.AddKey in Hadd'.
    cbn [String.eqb bind trigger run Cmd.PromptPassphrase] in Hadd'.
    destruct (h PromptRun w2) as [[p|e] w5]; cbn [bind trigger run] in Hadd'; [|discriminate].
    destruct (h NewSalt w5) as [[s|e] w6]; cbn [bind trigger run] in Hadd'; [|discriminate].
    destruct (KeyFromPassphrase p s) as [[wk ch]|e]; [|discriminate].
    cbn [bind trigger run] in Hadd'.
    destruct (h (WrapKey wk key) w6) as [[c|e] w7]; cbn [bind trigger run] in Hadd';
      [|discriminate].
    destruct (AddPassphrase info0 s ch c); [|discriminate].
    cbn [run fst] in Hadd'. now injection Hadd'. }
  subst msg.
  destruct (@AddKey_passphrase_slot info0 info1 key pass w2 Hc Happ Hprompt Hadd')
    as (slot & wk & -> & Hslot & Hkdf & Hun).
  now apply unlock_appended_slot with (pass := pass) (wk := wk).
Qed.

End CmdMore.

(* ================================================================== *)
(** * Properties of the index tree *)

Section IndexFacts.
Context {IndexElement : Type}.
Let Node : Type := Index.IndexTreeNode IndexElement.

Lemma findIn_app (name : string) (xs ys : list Node) :
  Index.findIn name (xs ++ ys) =
  match Index.findIn name xs with
  | Some c => Some c
  | None => Index.findIn name ys
  end.
Proof.
  induction xs as [|x xs IH]; simpl; [reflexivity|].
  destruct (Index.Name x =? name)%string; auto.
Qed.

Lemma findIn_first (name : string) (xs : list Node) (c : Node) :
  Index.findIn name xs = Some c ->
  exists pre post,
    xs = (pre ++ c :: post)%list /\
    Index.Name c = name /\
    forall x, In x pre -> Index.Name x <> name.
Proof.
  induction xs as [|x xs IH]; simpl; [discriminate|].
  destruct (Index.Name x =? name)%string eqn:E.
  - intro H. injection H as <-. exists [], xs.
    split; [reflexivity|]. split; [now apply String.eqb_eq|]. intros ? [].
  - intro H. destruct (IH H) as (pre & post & -> & Hn & Hpre).
    exists (x :: pre), post. split; [reflexivity|]. split; [exact Hn|].
    intros y [<-|Hy]; [now apply String.eqb_neq|now apply Hpre].
Qed.

Lemma findIn_none (name : string) (xs : list Node) :
  Index.findIn name xs = None <-> forall x, In x xs -> Index.Name x <> name.
Proof.
  induction xs as [|x xs IH]; simpl.
  - split; [intros _ ? []|reflexivity].
  - destruct (Index.Name x =? name)%string eqn:E.
    + split; [discriminate|]. intro H. apply String.eqb_eq in E.
      exfalso. exact (H x (or_introl eq_refl) E).
    + rewrite IH. apply String.eqb_neq in E. split.
      * intros H y [<-|Hy]; auto.
      * intros H y Hy. apply H. now right.
Qed.

Lemma Find_findIn (n : Node) (name : string) :
  Index.Find n name = if (name =? "")%string then None else Index.findIn name (Index.Children n).
Proof.
  unfold Index.Find. destruct (name =? "")%string; [reflexivity|].
  destruct (Index.Children n) as [|c cs]; [reflexivity|].
  replace (Z.of_nat (List.length (c :: cs)) <? 1) with false
    by (symmetry; apply Z.ltb_ge; simpl List.length; lia).
  reflexivity.
Qed.

(** X13.  A node that [Find] returns is a child of the node, bears the
    requested name, which is not empty, and is the first child that bears
    it. *)
Theorem Find_first_child (n c : Node) (name : string) :
  Index.Find n name = Some c ->
  name <> "" /\
  Index.Name c = name /\
  exists pre post,
    Index.Children n = (pre ++ c :: post)%list /\
    forall x, In x pre -> Index.Name x <> name.
Proof.
  rewrite Find_findIn. destruct (name =? "")%string eqn:E; [discriminate|].
  intro H. split; [now apply String.eqb_neq|].
  destruct (findIn_first _ _ H) as (pre & post & Hc & Hn & Hpre).
  split; [exact Hn|]. now exists pre, post.
Qed.

(** X14.  [Find] returns nil exactly when the name is empty or no child
    bears it; in particular a child whose name is empty is never found. *)
Theorem Find_nil (n : Node) (name : string) :
  Index.Find n name = None <->
  name = "" \/ forall x, In x (Index.Children n) -> Index.Name x <> name.
Proof.
  rewrite Find_findIn. destruct (name =? "")%string eqn:E.
  - apply String.eqb_eq in E. split; auto.
  - apply String.eqb_neq in E. rewrite findIn_none. split; [auto|].
    intros [H|H]; [contradiction|exact H].
Qed.

(** X15.  After [Add], a lookup that succeeded before returns the same
    child, and a lookup that failed before returns the added child when
    it asks for its name and that name is not empty, and fails otherwise.
    So [Add] hides no child, and a child added under a name that is
    already taken is itself not found. *)
Theorem Find_after_Add (n : Node) (name : string) (file : option IndexElement)
  (name' : string) :
  Index.Find (fst (Index.Add n name file)) name' =
  match Index.Find n name' with
  | Some c => Some c
  | None =>
      if (name' =? name)%string && negb (name' =? "")%string
      then Some (snd (Index.Add n name file))
      else None
  end.
Proof.
  rewrite !Find_findIn. cbn [Index.Add fst snd Index.Children].
  destruct (name' =? "")%string eqn:E.
  - now rewrite andb_false_r.
  - rewrite findIn_app. destruct (Index.findIn name' (Index.Children n)); [reflexivity|].
    cbn [Index.findIn Index.Name]. rewrite String.eqb_sym, andb_true_r. reflexivity.
Qed.

End IndexFacts.

(* ================================================================== *)
(** * Further properties of package repository *)

Section RepositoryMore.
Context {W : Type} (h : forall X, repoE X -> W -> X * W).

(** When the index returns fewer paths than objects, the loop panics at
    the first object without a path, after that object has been deleted. *)
Lemma deleteObjects_short_paths (objects : list string) :
  forall (pre ps : list string) (w : W),
    (List.length ps < List.length objects)%nat ->
    let '(r, _, tr) := run h (Repository.deleteObjects objects (pre ++ ps) (List.length pre)) w in
    r = Panicked /\
    map fst (deletions tr) = firstn (S (List.length ps)) objects /\
    map Path (sent tr) = ps.
Proof.
  induction objects as [|o os IH]; intros pre ps w Hlen; [simpl in Hlen; lia|].
  cbn [Repository.deleteObjects bind trigger run].
  destruct (h (StoreDelete o) w) as [err w1].
  destruct ps as [|p ps].
  - rewrite app_nil_r.
    replace (nth_error pre (List.length pre)) with (@None string)
      by (symmetry; apply nth_error_None; lia).
    cbn. auto.
  - rewrite nth_error_middle.
    specialize (IH (pre ++ [p])%list ps).
    rewrite <- app_assoc, length_app, Nat.add_1_r in IH. cbn [app] in IH.
    simpl in Hlen.
    destruct err as [e|]; cbn [bind trigger run];
      match goal with |- context [h (Send ?m) w1] =>
        destruct (h (Send m) w1) as [[] w2] end;
      specialize (IH w2 ltac:(lia));
      destruct (run h (Repository.deleteObjects os (pre ++ p :: ps) (S (List.length pre))) w2)
        as [[r w3] tr];
      destruct IH as (Hr & Hd & Hp);
      unfold deletions, sent in *; simpl; rewrite Hd, Hp; auto.
Qed.

(** X16.  When the removal from the index succeeds but returns fewer
    paths than objects, [RemovePath] panics on the first object that has
    no path: by then that object has been deleted from the store, and
    only the objects before it have been reported. *)
Theorem RemovePath_short_paths_panic
  (path : string) (w w1 : W) (objects paths : list string) :
  h (IndexDeleteFile path) w = ((objects, paths, None), w1) ->
  (List.length paths < List.length objects)%nat ->
  let tr := trace_of h (Repository.RemovePath path) w in
  result_of h (Repository.RemovePath path) w = Panicked /\
  map fst (deletions tr) = firstn (S (List.length paths)) objects /\
  map Path (sent tr) = paths.
Proof.
  intros Hidx Hlen. unfold trace_of, result_of, Repository.RemovePath.
  cbn [bind trigger run]. rewrite Hidx.
  replace (Z.of_nat (List.length objects) <? 1) with false
    by (symmetry; apply Z.ltb_ge; lia).
  pose proof (deleteObjects_short_paths objects [] paths w1 Hlen) as Hrun.
  cbn [app List.length] in Hrun.
  destruct (run h (Repository.deleteObjects objects paths 0) w1) as [[r w3] tr].
  destruct Hrun as (Hr & Hd & Hp).
  unfold deletions, sent in *. simpl. rewrite Hd, Hp. auto.
Qed.

End RepositoryMore.

(* ================================================================== *)
(** * Further properties of the Azure backend *)

(** Case analysis on every answer of the environment and on every test
    of the program in the goal. *)
Ltac run_cases h :=
  repeat first
    [ hstep h
    | progress run_cbn
    | match goal with
      | |- context [run h (match ?x with _ => _ end) _] =>
          let H := fresh "Hcase" in destruct x eqn:H
      | |- context [bind (match ?x with _ => _ end) _] =>
          let H := fresh "Hcase" in destruct x eqn:H
      end ].

Section AzureMore.
Context {F : FsDeps} {W : Type} (h : forall X, fsE X -> W -> X * W).

(** X17.  With an empty name every operation of the backend fails with
    "name is empty" before any external call: nothing is requested from
    Azure, and [GetWithRange] does not take the lock. *)
Theorem empty_name_is_refused
  (f : AzureStorage) (start count : Z) (content : bytes) (tag : Tag)
  (rng : RequestRange) (hasCb : bool) (w : W) :
  let err := Some (errors_New "name is empty") in
  run h (Azure.RawGet f "" start count) w = (Returned (false, TagNil, err), w, []) /\
  run h (Azure.RawSet f "" content tag) w = (Returned (TagNil, err), w, []) /\
  run h (Azure.Get f "" hasCb) w = (Returned (false, TagNil, err), w, []) /\
  run h (Azure.GetWithRange f "" rng hasCb) w = (Returned (rng, (false, TagNil, err)), w, []).
Proof. repeat split. Qed.

(** A blob whose name starts with an underscore lies at the root of the
    container, whatever the data path. *)
Lemma blobUrl_underscore_at_root (f : AzureStorage) (rest : string) :
  Azure.blobPath f (String "_" rest) = storageURL f ++ "/" ++ String "_" rest /\
  Azure.blobUrl f (String "_" rest) = url_Parse (storageURL f ++ "/" ++ String "_" rest).
Proof. split; reflexivity. Qed.

(** X18.  In every run of [GetWithRange] and of [Get], whatever the
    environment answers and also when the run panics, the mutex is taken
    at most once and released as many times as it is taken. *)
Theorem mutex_is_released
  (f : AzureStorage) (name : string) (rng : RequestRange) (hasCb : bool) (w : W) :
  let tr1 := trace_of h (Azure.GetWithRange f name rng hasCb) w in
  let tr2 := trace_of h (Azure.Get f name hasCb) w in
  (count_of is_lock tr1 <= 1)%nat /\ count_of is_unlock tr1 = count_of is_lock tr1 /\
  (count_of is_lock tr2 <= 1)%nat /\ count_of is_unlock tr2 = count_of is_lock tr2.
Proof.
  unfold trace_of, Azure.Get, Azure.GetWithRange, Azure.DecryptFile, Azure.getRange.
  destruct (Azure.blobUrl f name) as [u|e]; [|cbn; repeat split; lia].
  repeat split; run_cases h; cbn; lia.
Qed.

(** X19.  In every run of [RawGet], [Get] and [GetWithRange], also when
    the run panics, the bodies closed are the bodies of the downloads that
    were answered with a response, each closed once, the last one opened
    first (the deferred calls run in reverse order); no body stays open
    and none is closed twice. *)
Theorem bodies_are_closed
  (f : AzureStorage) (name : string) (start count : Z) (rng : RequestRange)
  (hasCb : bool) (w : W) :
  let tr1 := trace_of h (Azure.RawGet f name start count) w in
  let tr2 := trace_of h (Azure.Get f name hasCb) w in
  let tr3 := trace_of h (Azure.GetWithRange f name rng hasCb) w in
  closed_bodies tr1 = rev (opened_bodies tr1) /\
  closed_bodies tr2 = rev (opened_bodies tr2) /\
  closed_bodies tr3 = rev (opened_bodies tr3) /\
  (List.length (opened_bodies tr1) <= 1)%nat /\
  (List.length (opened_bodies tr2) <= 1)%nat /\
  (List.length (opened_bodies tr3) <= 2)%nat.
Proof.
  unfold trace_of, Azure.RawGet, Azure.Get, Azure.GetWithRange, Azure.DecryptFile,
    Azure.getRange.
  destruct (Azure.blobUrl f name) as [u|e]; [|cbn; repeat split; lia].
  repeat split; run_cases h; cbn; solve [reflexivity | lia].
Qed.

(** X20.  [Get] and [GetWithRange] invoke the caller's metadata callback
    at most once, and never when the caller passed none. *)
Theorem metadata_callback_at_most_once
  (f : AzureStorage) (name : string) (rng : RequestRange) (hasCb : bool) (w : W) :
  let n1 := count_of is_callback (trace_of h (Azure.Get f name hasCb) w) in
  let n2 := count_of is_callback (trace_of h (Azure.GetWithRange f name rng hasCb) w) in
  (n1 <= 1)%nat /\ (n2 <= 1)%nat /\ (hasCb = false -> n1 = 0%nat /\ n2 = 0%nat).
Proof.
  unfold trace_of, Azure.Get, Azure.GetWithRange, Azure.DecryptFile, Azure.getRange.
  destruct (Azure.blobUrl f name) as [u|e]; [|cbn; repeat split; lia].
  repeat split; run_cases h; cbn; try lia; try discriminate; reflexivity.
Qed.

(** X21.  When the cache holds a usable entry with its metadata,
    [GetWithRange] makes a single request, for the data range computed
    from the cached header and metadata lengths and the cached file size:
    the header is not fetched again, nothing is cancelled and nothing is
    added to the cache. *)
Theorem GetWithRange_cache_hit
  (f : AzureStorage) (name : string) (rng : RequestRange) (hasCb : bool) (w : W)
  (u : URL) (cached : CacheEntry) (md : Metadata) :
  Azure.blobUrl f name = Ok u ->
  fst (h (CacheGet name) (snd (h MuxLock w))) = cached ->
  cache_miss cached = false ->
  metadata cached = Some md ->
  let tr := trace_of h (Azure.GetWithRange f name rng hasCb) w in
  let rng' := SetFileSize
                (set_MetadataOffset (set_HeaderOffset rng (headerLength cached))
                   (metadataLength cached))
                (Size md) in
  downloads tr = [(CtxCaller, u, StartBytes rng', LengthBytes rng')] /\
  cache_adds tr = [] /\
  existsb (fun e => match ev_call e with Cancel => true | _ => false end) tr = false.
Proof.
  intros Hurl Hcached Hhit Hmd.
  unfold trace_of, Azure.GetWithRange, Azure.getRange. rewrite Hurl.
  cbn [bind trigger run].
  destruct (h MuxLock w) as [[] w1]. cbn [snd] in Hcached.
  destruct (h (CacheGet name) w1) as [cached' w2]. cbn [fst] in Hcached. subst cached'.
  unfold cache_miss in Hhit. rewrite Hhit, Hmd.
  run_cases h; repeat split.
Qed.

(** X22.  [RawGet] makes at most one request.  It asks for [count]
    bytes from [start] when [count] is positive, and for everything from
    [start] to the end of the blob when [count] is zero or negative. *)
Theorem RawGet_request
  (f : AzureStorage) (name : string) (start count : Z) (w : W) (u : URL) :
  Azure.blobUrl f name = Ok u ->
  downloads (trace_of h (Azure.RawGet f name start count) w)
  = [(CtxCaller, u, start, Z.max 0 count)] /\
  (count <= 0 -> Z.max 0 count = CountToEnd).
Proof.
  intro Hurl. split; [|unfold CountToEnd; lia].
  unfold trace_of, Azure.RawGet. rewrite Hurl.
  replace (if count <? 1 then CountToEnd else count) with (Z.max 0 count)
    by (unfold CountToEnd; destruct (Z.ltb_spec count 1); lia).
  run_cases h; reflexivity.
Qed.


End AzureMore.

(* ================================================================== *)
(** * Properties of the info file and of the deletion on Azure *)

Section AzureOpsFacts.
Context {F : FsDeps} {C : InfoCodec} {W : Type} (h : forall X, blobE X -> W -> X * W).

Lemma blobPath_of_object (f : AzureStorage) (c : ascii) (rest : string) :
  c <> "_"%char ->
  Azure.blobPath f (String c rest) = storageURL f ++ "/" ++ dataPath f ++ "/" ++ String c rest.
Proof.
  intro Hc. unfold Azure.blobPath. apply Ascii.eqb_neq in Hc. rewrite Hc.
  f_equal. cbn [append]. f_equal. apply append_assoc.
Qed.

(** X24.  In every run of [GetInfoFile], the backend is changed only
    when an info file is returned: then there is no error, the info file
    passes validation, the data path of the backend is the one recorded in
    the info file, and from then on every object is addressed inside that
    data path.  When no info file is returned the backend is as it was. *)
Theorem GetInfoFile_sets_data_path (f : AzureStorage) (w : W) :
  exists f' info err,
    result_of h (AzureOps.GetInfoFile f) w = Returned (f', (info, err)) /\
    match info with
    | Some i =>
        err = None /\
        Validate i = None /\
        f' = set_dataPath f (DataPath i) /\
        forall c rest, c <> "_"%char ->
          Azure.blobPath f' (String c rest)
          = storageURL f ++ "/" ++ DataPath i ++ "/" ++ String c rest
    | None => f' = f
    end.
Proof.
  unfold result_of, AzureOps.GetInfoFile.
  destruct (Azure.blobUrl f "_info.json") as [u|e];
    [|eexists _, _, _; split; reflexivity].
  cbn [bind trigger run].
  destruct (h (DownloadBlob u 0 CountToEnd noAccessConditions) w) as [[resp|[code st|msg]] w1];
    cbn [bind trigger run].
  - destruct (h (ReadAll resp) w1) as [[data|e] w2]; cbn [bind trigger run].
    + destruct (len data =? 0); cbn [bind trigger run].
      * destruct (h (CloseBody resp) w2) as [[] w3].
        eexists _, _, _; split; reflexivity.
      * destruct (json_Unmarshal data) as [info|e]; cbn [bind trigger run].
        -- destruct (Validate info) as [e|] eqn:Hval; cbn [bind trigger run];
             destruct (h (CloseBody resp) w2) as [[] w3];
             eexists _, _, _; (split; [reflexivity|]); cbv beta iota; [reflexivity|].
           repeat split; try assumption.
           intros c rest Hc. now rewrite blobPath_of_object.
        -- destruct (h (CloseBody resp) w2) as [[] w3].
           eexists _, _, _; split; reflexivity.
    + destruct (h (CloseBody resp) w2) as [[] w3].
      eexists _, _, _; split; reflexivity.
  - destruct (code =? StatusNotFound); eexists _, _, _; split; reflexivity.
  - eexists _, _, _; split; reflexivity.
Qed.

(** X25.  [GetInfoFile] reads the blob "_info.json" at the root of the
    container, whatever the data path.  When Azure answers 404, or when
    the blob is there and its body is empty, it returns a nil info file
    and a nil error: an empty info file reads like a missing one. *)
Theorem GetInfoFile_missing_or_empty (f : AzureStorage) (w : W) (u : URL) :
  url_Parse (storageURL f ++ "/_info.json") = Ok u ->
  let call := DownloadBlob u 0 CountToEnd noAccessConditions in
  (exists status, fst (h call w) = inr (StorageError 404 status)) \/
  (exists resp, fst (h call w) = inl resp /\
                fst (h (ReadAll resp) (snd (h call w))) = Ok []) ->
  result_of h (AzureOps.GetInfoFile f) w = Returned (f, (None, None)) /\
  exists ans tail, trace_of h (AzureOps.GetInfoFile f) w = Ev call ans :: tail.
Proof.
  intros Hurl call Hcase.
  unfold result_of, trace_of, AzureOps.GetInfoFile.
  change (Azure.blobUrl f "_info.json") with (url_Parse (storageURL f ++ "/_info.json")).
  rewrite Hurl. cbn [bind trigger run]. fold call.
  destruct (h call w) as [ans w1]. cbn [fst snd] in Hcase.
  destruct Hcase as [[status ->] | (resp & -> & Hread)].
  - cbn. split; [reflexivity|]. eexists _, _. reflexivity.
  - cbn [bind trigger run].
    destruct (h (ReadAll resp) w1) as [d w2]. cbn [fst] in Hread. subst d.
    cbn [len List.length Z.of_nat Z.eqb bind trigger run].
    destruct (h (CloseBody resp) w2) as [[] w3].
    cbn. split; [reflexivity|]. eexists _, _. reflexivity.
Qed.

(** X26.  [SetInfoFile] makes a single request, the upload of the
    serialized info file to "_info.json" at the root of the container,
    without any access condition: it overwrites whatever is there.  When
    the serialization fails nothing is requested and its error is
    returned. *)
Theorem SetInfoFile_overwrites (f : AzureStorage) (info : InfoFile) (w : W) (u : URL) :
  url_Parse (storageURL f ++ "/_info.json") = Ok u ->
  match json_Marshal info with
  | Ok data =>
      let call := UploadBuffer u data noAccessConditions in
      trace_of h (AzureOps.SetInfoFile f info) w = [Ev call (fst (h call w))] /\
      (fst (h call w) = None <-> result_of h (AzureOps.SetInfoFile f info) w = Returned None)
  | Err e =>
      run h (AzureOps.SetInfoFile f info) w = (Returned (Some e), w, [])
  end.
Proof.
  intro Hurl. unfold result_of, trace_of, AzureOps.SetInfoFile.
  change (Azure.blobUrl f "_info.json") with (url_Parse (storageURL f ++ "/_info.json")).
  destruct (json_Marshal info) as [data|e]; [|reflexivity].
  rewrite Hurl. cbn [bind trigger run].
  destruct (h (UploadBuffer u data noAccessConditions) w) as [[[code st|msg]|] w1];
    cbn; (split; [reflexivity|]); split; intro H; try discriminate; reflexivity.
Qed.

(** X27.  [Delete] makes at most one request, which also deletes the
    snapshots of the blob.  With a nil tag the request is unconditional
    (unlike a write with a nil tag); with an ETag it carries If-Match
    with that tag.  The error of the request is returned as it is. *)
Theorem Delete_request (f : AzureStorage) (name : string) (tag : Tag) (w : W) (u : URL) :
  Azure.blobUrl f name = Ok u ->
  match tag with
  | TagNil =>
      let call := DeleteBlob u true noAccessConditions in
      run h (AzureOps.Delete f name tag) w
      = (Returned (fst (h call w)), snd (h call w), [Ev call (fst (h call w))])
  | TagETag etag =>
      let call := DeleteBlob u true (mkAC etag "") in
      run h (AzureOps.Delete f name tag) w
      = (Returned (fst (h call w)), snd (h call w), [Ev call (fst (h call w))])
  | TagOther => run h (AzureOps.Delete f name tag) w = (Panicked, w, [])
  end.
Proof.
  intro Hurl. unfold AzureOps.Delete. rewrite Hurl.
  destruct tag as [|etag|]; cbn [trigger run]; try reflexivity;
    match goal with |- context [h ?c w] => destruct (h c w) as [ans w1] end;
    reflexivity.
Qed.

End AzureOpsFacts.

(* ================================================================== *)
(** * Properties of the file handler *)

Section ServerFacts.
Context {W : Type} (h : forall X, Server.httpE X -> W -> X * W).

Lemma removeQuotes_no_quote (s : string) : has_quote (Server.removeQuotes s) = false.
Proof.
  induction s as [|c s IH]; simpl; [reflexivity|].
  destruct (Ascii.eqb c Server.quote) eqn:E; simpl; [exact IH|].
  now rewrite E.
Qed.

Lemma removeQuotes_id (s : string) : has_quote s = false -> Server.removeQuotes s = s.
Proof.
  induction s as [|c s IH]; simpl; [reflexivity|].
  destruct (Ascii.eqb c Server.quote); simpl; [discriminate|].
  intro H. now rewrite IH.
Qed.

(** The callback only sets headers. *)
Lemma sendAll_run (headers : list Server.Header) (w : W) :
  let '(r, _, tr) := run h (Server.sendAll headers) w in
  r = Returned tt /\ store_calls tr = [] /\ uuid_checks tr = [] /\ aborts tr = [].
Proof.
  revert w. induction headers as [|hd rest IH]; intro w; [cbn; auto|].
  cbn [Server.sendAll]. unfold Server.sendHeaders.
  destruct (negb (Server.ContentType hd =? "")%string);
    destruct (0 <? Server.Size hd);
    cbn [bind trigger run];
    repeat match goal with |- context [h (Server.SetHeader ?k ?v) ?w0] =>
             destruct (h (Server.SetHeader k v) w0) as [[] ?] end;
    match goal with |- context [run h (Server.sendAll rest) ?w0] =>
      specialize (IH w0); destruct (run h (Server.sendAll rest) w0) as [[r w'] tr] end;
    destruct IH as (Hr & Hs & Hu & Ha);
    unfold store_calls, uuid_checks, aborts in *; cbn; auto.
Qed.

(** X28.  In every run of [FileHandler] the store is asked for at most
    one file, and only for an id that is not empty and that the UUID
    parser accepted as a version-4 UUID; and the request is aborted at
    most once. *)
Theorem FileHandler_validates_before_store (w : W) :
  let tr := trace_of h Server.FileHandler w in
  (List.length (aborts tr) <= 1)%nat /\
  (store_calls tr = [] \/
   exists fileId, store_calls tr = [fileId] /\ fileId <> "" /\
                  uuid_checks tr = [(fileId, Ok 4)]).
Proof.
  unfold trace_of, Server.FileHandler. cbn [bind trigger run].
  destruct (h (Server.Param "fileId") w) as [fileId w1].
  destruct (fileId =? "")%string eqn:Hid; cbn [bind trigger run].
  { match goal with |- context [h ?c w1] => destruct (h c w1) as [[] w2] end.
    cbn. auto. }
  destruct (h (Server.UUIDFromString fileId) w1) as [[version|e] w2]; cbn [bind trigger run].
  2: { match goal with |- context [h ?c w2] => destruct (h c w2) as [[] w3] end.
       cbn. auto. }
  destruct (version =? 4) eqn:Hv; cbn [negb bind trigger run].
  2: { match goal with |- context [h ?c w2] => destruct (h c w2) as [[] w3] end.
       cbn. auto. }
  apply Z.eqb_eq in Hv. subst version. apply String.eqb_neq in Hid.
  destruct (h (Server.StoreGet fileId) w2) as [[[headers found] err] w3].
  rewrite run_bind.
  pose proof (sendAll_run headers w3) as Hsend.
  destruct (run h (Server.sendAll headers) w3) as [[r w4] tr].
  destruct Hsend as (-> & Hs & Hu & Ha).
  assert (Hfin : forall tr', store_calls tr' = [] -> uuid_checks tr' = [] ->
                   (List.length (aborts tr') <= 1)%nat ->
                   (List.length (aborts (tr ++ tr')) <= 1)%nat /\
                   store_calls (tr ++ tr') = [] /\ uuid_checks (tr ++ tr') = []).
  { intros tr' Hs' Hu' Ha'. unfold aborts, store_calls, uuid_checks in *.
    rewrite !flat_map_app, Hs, Hu, Ha, Hs', Hu'. auto. }
  destruct found; cbn [negb].
  - destruct err as [e|]; cbn [trigger run].
    + match goal with |- context [h ?c w4] => destruct (h c w4) as [[] w5] end.
      destruct (Hfin [Ev (Server.AbortWithError Server.StatusInternalServerError (Some e)) tt])
        as (H1 & H2 & H3); [reflexivity|reflexivity|cbn; lia|].
      unfold aborts, store_calls, uuid_checks in *. cbn. rewrite H2, H3.
      split; [exact H1|]. right. exists fileId. auto.
    + destruct (Hfin []) as (H1 & H2 & H3); [reflexivity|reflexivity|cbn; lia|].
      unfold aborts, store_calls, uuid_checks in *. cbn. rewrite H2, H3.
      split; [exact H1|]. right. exists fileId. auto.
  - cbn [trigger run].
    match goal with |- context [h ?c w4] => destruct (h c w4) as [[] w5] end.
    destruct (Hfin [Ev (Server.AbortWithError Server.StatusNotFound
                          (Some (errors_New "file does not exist"))) tt])
      as (H1 & H2 & H3); [reflexivity|reflexivity|cbn; lia|].
    unfold aborts, store_calls, uuid_checks in *. cbn. rewrite H2, H3.
    split; [exact H1|]. right. exists fileId. auto.
Qed.

Lemma sendAll_aborts (headers : list Server.Header) (w : W) :
  fst (fst (run h (Server.sendAll headers) w)) = Returned tt /\
  aborts (snd (run h (Server.sendAll headers) w)) = [].
Proof.
  pose proof (sendAll_run headers w) as H.
  destruct (run h (Server.sendAll headers) w) as [[r w'] tr].
  destruct H as (Hr & _ & _ & Ha). auto.
Qed.

(** X29.  For a non-empty file id, the aborts of [FileHandler] are as
    follows.  An id that does not parse is refused with status 400 and the
    error of the parser; an id that parses as a UUID of another version
    than 4 is refused with status 400 and a nil error.  Otherwise, when
    the store reports the file as not found the status is 404 even if the
    store also returned an error, which is dropped; when it reports the
    file as found with an error the status is 500 with that error; and
    there is no abort when it reports the file as found without error. *)
Theorem FileHandler_status (w : W) :
  let fileId := fst (h (Server.Param "fileId") w) in
  let w1 := snd (h (Server.Param "fileId") w) in
  let parsed := fst (h (Server.UUIDFromString fileId) w1) in
  let w2 := snd (h (Server.UUIDFromString fileId) w1) in
  let answer := fst (h (Server.StoreGet fileId) w2) in
  fileId <> "" ->
  aborts (trace_of h Server.FileHandler w) =
  match parsed with
  | Err e => [(400, Some e)]
  | Ok version =>
      if version =? 4 then
        match answer with
        | (_, false, _) => [(404, Some (errors_New "file does not exist"))]
        | (_, true, Some e) => [(500, Some e)]
        | (_, true, None) => []
        end
      else [(400, None)]
  end.
Proof.
  intros fileId w1 parsed w2 answer Hid.
  subst fileId w1 parsed w2 answer.
  unfold trace_of, Server.FileHandler. cbn [bind trigger run].
  destruct (h (Server.Param "fileId") w) as [fileId w1]. cbn [fst snd] in *.
  apply String.eqb_neq in Hid. rewrite Hid. cbn [bind trigger run].
  destruct (h (Server.UUIDFromString fileId) w1) as [[version|e] w2]; cbn [fst snd bind trigger run].
  2: { match goal with |- context [h ?c w2] => destruct (h c w2) as [[] w3] end.
       reflexivity. }
  destruct (version =? 4); cbn [negb bind trigger run].
  2: { match goal with |- context [h ?c w2] => destruct (h c w2) as [[] w3] end.
       reflexivity. }
  destruct (h (Server.StoreGet fileId) w2) as [[[headers found] err] w3]. cbn [fst].
  rewrite run_bind.
  destruct (sendAll_aborts headers w3) as [Hr Ha].
  destruct (run h (Server.sendAll headers) w3) as [[r w4] tr]. cbn [fst snd] in Hr, Ha.
  subst r.
  destruct found; cbn [negb]; [destruct err as [e|]|]; cbn [trigger run];
    try match goal with |- context [h ?c w4] => destruct (h c w4) as [[] w5] end;
    cbn [snd]; unfold aborts in *; cbn [flat_map abort_of ev_call app];
    rewrite flat_map_app, Ha; reflexivity.
Qed.

(** X30.  The headers that the callback of [FileHandler] sets: a
    Content-Type that is never empty; a Content-Length exactly when the
    size is positive; and a Content-Disposition that is "inline" alone for
    an empty name, and otherwise quotes a file name that holds no double
    quote and that is the name itself when the name holds none. *)
Theorem sendHeaders_headers (header : Server.Header) (w : W) :
  let sent := headers_sent (trace_of h (Server.sendHeaders header) w) in
  (exists contentType, In ("Content-Type", contentType) sent /\ contentType <> "") /\
  (In "Content-Length" (map fst sent) <-> 0 < Server.Size header) /\
  exists fileName,
    has_quote fileName = false /\
    (has_quote (Server.Name header) = false -> fileName = Server.Name header) /\
    In ("Content-Disposition",
        if (Server.Name header =? "")%string then "inline"
        else "inline; filename=" ++ String Server.quote (fileName ++ String Server.quote ""))
       sent.
Proof.
  unfold trace_of, Server.sendHeaders.
  destruct (Server.ContentType header =? "")%string eqn:Hct;
    destruct (Z.ltb_spec 0 (Server.Size header)) as [Hsz|Hsz];
    cbn [negb bind trigger run];
    repeat match goal with |- context [h (Server.SetHeader ?k ?v) ?w0] =>
             destruct (h (Server.SetHeader k v) w0) as [[] ?] end;
    cbn [snd headers_sent flat_map header_of ev_call app map fst].
  all: split; [eexists; split; [left; reflexivity|];
               first [discriminate | now apply String.eqb_neq]|].
  all: split; [split; [intro H; cbn in H; intuition (try discriminate; try lia)
                      | intro H; try lia; cbn; auto]|].
  all: exists (Server.removeQuotes (Server.Name header));
       split; [apply removeQuotes_no_quote|];
       split; [apply removeQuotes_id|];
       unfold Server.contentDisposition;
       destruct (Server.Name header =? "")%string; cbn; auto.
Qed.

End ServerFacts.

(* ================================================================== *)
(** * The further properties on the sample environment *)

Section SampleMoreFacts.
Import Sample SampleMore.
Local Open Scope list_scope.

Lemma sample_no_gpg (s : Script) (info : InfoFile) :
  gpg s = no_gpg ->
  forall k (w' : nat), In k (gpg_slots info) ->
    is_ok (fst (env s (GPGDecrypt (MasterKey k)) w')) = false.
Proof. intros Hs k w' _. simpl. rewrite Hs. reflexivity. Defined.

Lemma UpgradeInfoFile_refuses_other_versions_witness :
  run (env hunter2) (Cmd.UpgradeInfoFile (D := deps) upgraded_info) 0%nat
  = (Returned (upgraded_info,
               ("Unsupported repository version",
                Some (errors_New "This repository has already been upgraded or is using an unsupported version"))),
     0%nat, []).
Proof.
  apply (@UpgradeInfoFile_refuses_other_versions deps nat (env hunter2) upgraded_info 0%nat);
    discriminate.
Defined.

Lemma UpgradeInfoFile_wrong_passphrase_witness :
  result_of (env wrong) (Cmd.UpgradeInfoFile (D := deps) v1_info) 0%nat
    = Returned (v1_info, ("Cannot unlock the repository", Some (errors_New "Invalid passphrase"))) /\
  trace_of (env wrong) (Cmd.UpgradeInfoFile (D := deps) v1_info) 0%nat
    = [Ev PromptRun (Ok "wrong")].
Proof.
  apply (@UpgradeInfoFile_wrong_passphrase deps nat (env wrong) v1_info "wrong" 0%nat);
    reflexivity.
Defined.

Lemma UpgradeInfoFile_v1_without_legacy_witness :
  run (env hunter2) (Cmd.UpgradeInfoFile (D := deps) gpg_only_v1) 0%nat
  = (Returned (set_Version gpg_only_v1 3, ("", None)), 0%nat, []).
Proof.
  apply (@UpgradeInfoFile_v1_without_legacy deps nat (env hunter2) gpg_only_v1 0%nat).
  - reflexivity.
  - left. reflexivity.
Defined.

Lemma GetMasterKey_first_accepting_slot_witness :
  result_of (env hunter2) (Cmd.GetMasterKey (D := deps) three_slots) 0%nat
  = Returned (legacy_key, "p:1", "", None).
Proof.
  apply (@GetMasterKey_first_accepting_slot deps nat (env hunter2) three_slots
           [mkKey "0xABCD" [x01; x02; x03] [] []; other_slot] new_slot [] "hunter2"
           (pad 32 (repeat x07 16 ++ list_byte_of_string "hunter2")) legacy_key 0%nat).
  - reflexivity.
  - apply sample_no_gpg. reflexivity.
  - reflexivity.
  - reflexivity.
  - intros k' [<-|[<-|[]]]; reflexivity.
  - reflexivity.
  - reflexivity.
  - apply unwrap_wrap.
Defined.

Lemma GetMasterKey_unwrap_failure_is_final_witness :
  result_of (env hunter2) (Cmd.GetMasterKey (D := broken_deps) three_slots) 0%nat
  = Returned ([], "", "Error while unwrapping the master key",
              Some (errors_New "cipher: message authentication failed")).
Proof.
  apply (@GetMasterKey_unwrap_failure_is_final broken_deps nat (env hunter2) three_slots
           [mkKey "0xABCD" [x01; x02; x03] [] []; other_slot] new_slot [] "hunter2"
           (pad 32 (repeat x07 16 ++ list_byte_of_string "hunter2"))
           (errors_New "cipher: message authentication failed") 0%nat).
  - reflexivity.
  - apply sample_no_gpg. reflexivity.
  - reflexivity.
  - reflexivity.
  - intros k' [<-|[<-|[]]]; reflexivity.
  - reflexivity.
  - reflexivity.
  - reflexivity.
Defined.

Lemma GetMasterKey_prompt_failure_witness :
  result_of (env interrupted) (Cmd.GetMasterKey (D := deps) three_slots) 0%nat
  = Returned ([], "", "Error getting passphrase", Some (errors_New "^C")).
Proof.
  apply (@GetMasterKey_prompt_failure deps nat (env interrupted) three_slots
           (errors_New "^C") 0%nat).
  - apply sample_no_gpg. reflexivity.
  - reflexivity.
Defined.

Lemma GetMasterKey_legacy_first_witness :
  slot_accepts (D := deps) "hunter2" new_slot = true /\
  result_of (env hunter2) (Cmd.GetMasterKey (D := deps) v1_with_slot) 0%nat
  = Returned (legacy_key, "LegacyKey", "", None).
Proof.
  split; [reflexivity|].
  apply (@GetMasterKey_legacy_first deps nat (env hunter2) v1_with_slot "hunter2"
           legacy_key 0%nat).
  - apply sample_no_gpg. reflexivity.
  - reflexivity.
  - vm_compute. reflexivity.
  - vm_compute. reflexivity.
  - reflexivity.
Defined.

Lemma AddKey_with_gpg_key_witness :
  trace_of (env hunter2) (Cmd.AddKey (D := deps) fresh_info fresh_key "0xABCD") 0%nat
  = [Ev (GPGEncrypt fresh_key "0xABCD")
        (fst (env hunter2 (GPGEncrypt fresh_key "0xABCD") 0%nat))].
Proof.
  destruct (@AddKey_with_gpg_key deps nat (env hunter2) fresh_info fresh_key "0xABCD" 0%nat)
    as [Htr _].
  - discriminate.
  - exact Htr.
Defined.

Lemma AddKey_then_GetMasterKey_witness :
  result_of (env hunter2) (Cmd.AddKey (D := deps) fresh_info fresh_key "") 0%nat
    = Returned (append_key fresh_info added_slot, ("", None)) /\
  result_of (env hunter2) (Cmd.GetMasterKey (D := deps) (append_key fresh_info added_slot)) 5%nat
    = Returned (fresh_key, "p:0", "", None).
Proof.
  assert (Hadd : result_of (env hunter2) (Cmd.AddKey (D := deps) fresh_info fresh_key "") 0%nat
                 = Returned (append_key fresh_info added_slot, ("", None))) by reflexivity.
  split; [exact Hadd|].
  apply (@AddKey_then_GetMasterKey deps nat (env hunter2) fresh_info
           (append_key fresh_info added_slot) fresh_key "hunter2" 0%nat).
  - apply sample_crypto_contract. reflexivity.
  - apply sample_AddPassphrase_appends.
  - reflexivity.
  - apply sample_no_gpg. reflexivity.
  - reflexivity.
  - intros k [].
  - exact Hadd.
Defined.

Lemma NewInfoFile_then_GetMasterKey_witness :
  result_of (env hunter2) (Cmd.NewInfoFile (D := deps) "") 0%nat
    = Returned (Some (append_key fresh_info added_slot), "", None) /\
  result_of (env hunter2) (Cmd.GetMasterKey (D := deps) (append_key fresh_info added_slot)) 5%nat
    = Returned (fresh_key, "p:0", "", None).
Proof.
  assert (Hnew : result_of (env hunter2) (Cmd.NewInfoFile (D := deps) "") 0%nat
                 = Returned (Some (append_key fresh_info added_slot), "", None)) by reflexivity.
  split; [exact Hnew|].
  apply (@NewInfoFile_then_GetMasterKey deps nat (env hunter2) fresh_info
           (append_key fresh_info added_slot) fresh_key "hunter2" 0%nat 1%nat 2%nat).
  - apply sample_crypto_contract. reflexivity.
  - apply sample_AddPassphrase_appends.
  - reflexivity.
  - reflexivity.
  - reflexivity.
  - apply sample_no_gpg. reflexivity.
  - reflexivity.
  - intros k [].
  - exact Hnew.
Defined.

Lemma Find_first_child_witness :
  Index.Find folder "b.txt" = Some (Index.mkNode "b.txt" (Some "id-2") []) /\
  Index.Name (Index.mkNode "b.txt" (Some "id-2") ([] : list (Index.IndexTreeNode string)))
  = "b.txt".
Proof.
  assert (H : Index.Find folder "b.txt" = Some (Index.mkNode "b.txt" (Some "id-2") []))
    by reflexivity.
  split; [exact H|].
  destruct (@Find_first_child string folder _ "b.txt" H) as (_ & Hn & _). exact Hn.
Defined.

Lemma RemovePath_short_paths_panic_witness :
  let tr := trace_of (repo_env one_path) (Repository.RemovePath "/docs/") 0%nat in
  result_of (repo_env one_path) (Repository.RemovePath "/docs/") 0%nat = Panicked /\
  map fst (deletions tr) = ["id-1"; "id-2"] /\
  map Path (sent tr) = ["/docs/a"].
Proof.
  apply (@RemovePath_short_paths_panic nat (repo_env one_path) "/docs/" 0%nat 1%nat
           ["id-1"; "id-2"] ["/docs/a"]).
  - reflexivity.
  - simpl. lia.
Defined.

Lemma GetWithRange_cache_hit_witness :
  downloads (trace_of cached_env
               (Azure.GetWithRange (F := fsdeps) azure object_id boundary_range false) 0%nat)
  = [(CtxCaller, mkURL (Azure.blobPath azure object_id), 64 + 120, 2 * (65536 + 16))].
Proof.
  destruct (@GetWithRange_cache_hit fsdeps nat cached_env azure object_id boundary_range false
              0%nat (mkURL (Azure.blobPath azure object_id)) cached_entry
              (mkMetadata "readme.md" "text/markdown" 1048576)
              eq_refl eq_refl eq_refl eq_refl) as (Hd & _ & _).
  rewrite Hd. reflexivity.
Defined.

Lemma RawGet_request_witness :
  downloads (trace_of (fs_env 10) (Azure.RawGet (F := fsdeps) azure object_id 5 (-1)) 0%nat)
  = [(CtxCaller, mkURL (Azure.blobPath azure object_id), 5, 0)].
Proof.
  destruct (@RawGet_request fsdeps nat (fs_env 10) azure object_id 5 (-1) 0%nat
              (mkURL (Azure.blobPath azure object_id)) eq_refl) as [Hd _].
  rewrite Hd. reflexivity.
Defined.

Lemma GetInfoFile_missing_or_empty_witness :
  result_of (blob_env (inr (StorageError 404 "404 Not Found")))
    (AzureOps.GetInfoFile (F := fsdeps) (C := codec) azure) 0%nat
  = Returned (azure, (None, None)).
Proof.
  destruct (@GetInfoFile_missing_or_empty fsdeps codec nat
              (blob_env (inr (StorageError 404 "404 Not Found"))) azure 0%nat
              (mkURL "https://acct.blob.core.windows.net/box/_info.json") eq_refl)
    as [Hr _].
  - left. exists "404 Not Found". reflexivity.
  - exact Hr.
Defined.

Lemma SetInfoFile_overwrites_witness :
  trace_of (blob_env (inr (NetworkError "")))
    (AzureOps.SetInfoFile (F := fsdeps) (C := codec) azure v2_info) 0%nat
  = [Ev (UploadBuffer (mkURL "https://acct.blob.core.windows.net/box/_info.json")
           [x7b; x7d] noAccessConditions) None].
Proof.
  destruct (@SetInfoFile_overwrites fsdeps codec nat (blob_env (inr (NetworkError "")))
              azure v2_info 0%nat
              (mkURL "https://acct.blob.core.windows.net/box/_info.json") eq_refl)
    as [Htr _].
  exact Htr.
Defined.

Lemma Delete_request_witness :
  run (blob_env (inr (NetworkError "")))
    (AzureOps.Delete (F := fsdeps) azure object_id TagNil) 0%nat
  = (Returned None, 1%nat,
     [Ev (DeleteBlob (mkURL (Azure.blobPath azure object_id)) true noAccessConditions) None]).
Proof.
  exact (@Delete_request fsdeps nat (blob_env (inr (NetworkError ""))) azure object_id TagNil
           0%nat (mkURL (Azure.blobPath azure object_id)) eq_refl).
Defined.

Lemma FileHandler_status_witness :
  aborts (trace_of http_env Server.FileHandler 0%nat)
  = [(404, Some (errors_New "file does not exist"))].
Proof.
  apply (@FileHandler_status nat http_env 0%nat). discriminate.
Defined.

End SampleMoreFacts.
